(** * CertificateNft: a soulbound credential registry

    Shallow embedding of [smart-contracts/contracts/CertificateNft.sol]
    together with the parts of the two contracts it inherits from
    (OpenZeppelin Contracts v5 [AccessControl] and [ERC721]).

    Storage is a record of finite maps; a Solidity mapping is total, so every
    read goes through [default] with the zero value of the value type.
    Contract code runs in a state-and-failure monad whose failure branch keeps
    the storage as it was when the revert was raised; the rollback performed
    by the EVM is the business of [transact].  The recipient of a safe mint
    may be a contract that calls the registry while it is asked to accept the
    token; [rexec] and [rtransact] run a call against such a recipient. *)

From stdpp Require Import gmap strings list.
From Stdlib Require Import ZArith Lia.

Local Open Scope Z_scope.

(** ** Value types *)

(** [address] is a 160-bit, [uint256] and [bytes32] a 256-bit quantity; all
    three are carried by [Z].  [address(0)], written [0], is the no-owner
    sentinel of ERC721. *)
Abbreviation address := Z (only parsing).
Abbreviation uint256 := Z (only parsing).
Abbreviation bytes32 := Z (only parsing).

Definition MAX_UINT256 : Z := 2 ^ 256 - 1.

Inductive IssuerStatus := Active | Suspended | Deactivated.

#[global] Instance IssuerStatus_eq_dec : EqDecision IssuerStatus.
Proof. solve_decision. Defined.

Record CertificateData := mkCertificateData {
  recipientName : string;
  recipientAddress : address;
  issuerAddress : address;
  issueDate : uint256;
  courseTitle : string
}.

Record Issuer := mkIssuer {
  name : string;
  website : string;
  status : IssuerStatus;
  registrationDate : uint256
}.

(** Zero values read from an unwritten mapping slot.  The first member of the
    enum, [Active], is its zero value. *)
Definition CertificateData_zero : CertificateData :=
  mkCertificateData EmptyString 0 0 0 EmptyString.

Definition Issuer_zero : Issuer := mkIssuer EmptyString EmptyString Active 0.

(** ** Role identifiers *)

(** [DEFAULT_ADMIN_ROLE] is [0x00] in AccessControl. *)
Definition DEFAULT_ADMIN_ROLE : bytes32 := 0.

(** [keccak256("ADMIN_ROLE")] *)
Definition ADMIN_ROLE : bytes32 :=
  0xa49807205ce4d355092ef5a8a18f56e8913cf4a201fbe287825b095693c21775.

(** [keccak256("ISSUER_ROLE")] *)
Definition ISSUER_ROLE : bytes32 :=
  0x114e74f6ea3bd819998f78687bfcb11b140da08e9b7d222fa9c1f1ba1f2aa122.

(** ** Events and failures *)

Inductive Event :=
  | IssuerAdded (issuerAddress : address)
  | IssuerRoleRevoked (issuerAddress : address)
  | IssuerStatusUpdated (issuerAddress : address) (oldStatus newStatus : IssuerStatus)
  | CertificateIssued (tokenId : uint256) (issuer recipient : address)
  | RoleAdminChanged (role previousAdminRole newAdminRole : bytes32)
  | RoleGranted (role : bytes32) (account sender : address)
  | RoleRevoked (role : bytes32) (account sender : address)
  | Transfer (from to : address) (tokenId : uint256)
  | Approval (owner approved : address) (tokenId : uint256)
  | ApprovalForAll (owner operator : address) (approved : bool).

Inductive Error :=
  | RequireFailed (reason : string)
  | Panic (code : Z)
  | AccessControlUnauthorizedAccount (account : address) (neededRole : bytes32)
  | AccessControlBadConfirmation
  | ERC721InvalidOwner (owner : address)
  | ERC721NonexistentToken (tokenId : uint256)
  | ERC721IncorrectOwner (sender : address) (tokenId : uint256) (owner : address)
  | ERC721InvalidSender (sender : address)
  | ERC721InvalidReceiver (receiver : address)
  | ERC721InsufficientApproval (operator : address) (tokenId : uint256)
  | ERC721InvalidApprover (approver : address)
  | ERC721InvalidOperator (operator : address).

(** The failure names of the specification, as the contract raises them. *)
Definition Unauthorized (account : address) (role : bytes32) : Error :=
  AccessControlUnauthorizedAccount account role.
Definition IssuerAlreadyExists : Error :=
  RequireFailed "Certify: Issuer already exist".
Definition IssuerNotFound : Error :=
  RequireFailed "Certify: Issuer does not exist".
Definition IssuerDeactivated : Error :=
  RequireFailed "Certify: Issuer is permanently deactivated".
Definition StatusUnchanged : Error :=
  RequireFailed "Certify: Issuer already has this status".
Definition IssuerNotActive : Error :=
  RequireFailed "Certify: Issuer is not active".
Definition CredentialNotFound : Error :=
  RequireFailed "Certify: Certificate does not exist".
Definition TransferForbidden : Error :=
  RequireFailed "Soulbound: This token is non-transferable.".

(** ** Storage *)

Record State := mkState {
  (* AccessControl: _roles[role].hasRole[account], _roles[role].adminRole *)
  _roles_hasRole : gmap (bytes32 * address) bool;
  _roles_adminRole : gmap bytes32 bytes32;
  (* ERC721 *)
  _owners : gmap uint256 address;
  _balances : gmap address uint256;
  _tokenApprovals : gmap uint256 address;
  _operatorApprovals : gmap (address * address) bool;
  (* CertificateNft *)
  issuers : gmap address Issuer;
  certificateDetails : gmap uint256 CertificateData;
  _nextTokenId : uint256;
  (* the log of emitted events, oldest first *)
  events : list Event
}.

Definition empty_storage : State :=
  mkState ∅ ∅ ∅ ∅ ∅ ∅ ∅ ∅ 0 [].

(** The transaction context: [msg.sender], [block.timestamp], and the answer
    of the recipient to the ERC721 acceptance check made by safe transfers
    ([true] for an account without code, and for a contract whose
    [onERC721Received] returns the expected selector).  [receiver_accepts]
    describes recipients that give their answer without calling the registry
    and refuse without revert data; recipients in general are described by
    [Receiver] below, and [rexec] runs a call against one of them. *)
Record Env := mkEnv {
  msg_sender : address;
  block_timestamp : uint256;
  receiver_accepts : address -> uint256 -> bool
}.

(** ** The execution monad *)

Inductive Outcome (A : Type) :=
  | Done (a : A) (s : State)
  | Reverted (e : Error) (s : State).
Arguments Done {A} a s.
Arguments Reverted {A} e s.

Definition M (A : Type) : Type := State -> Outcome A.

Definition ret {A} (a : A) : M A := fun s => Done a s.

Definition bind {A B} (m : M A) (f : A -> M B) : M B :=
  fun s => match m s with
           | Done a s' => f a s'
           | Reverted e s' => Reverted e s'
           end.

Definition revert {A} (e : Error) : M A := fun s => Reverted e s.

Definition gets {A} (f : State -> A) : M A := fun s => Done (f s) s.

Definition modify (f : State -> State) : M unit := fun s => Done tt (f s).

#[global] Instance M_ret : MRet M := @ret.
#[global] Instance M_bind : MBind M := fun A B f m => bind m f.

(** [require(cond, reason)] *)
Definition require (cond : bool) (reason : string) : M unit :=
  if cond then ret tt else revert (RequireFailed reason).

(** [if (cond) revert E(...)] *)
Definition revert_if (cond : bool) (e : Error) : M unit :=
  if cond then revert e else ret tt.

Definition emit (ev : Event) : M unit :=
  modify (fun s =>
    mkState (_roles_hasRole s) (_roles_adminRole s) (_owners s) (_balances s)
            (_tokenApprovals s) (_operatorApprovals s) (issuers s)
            (certificateDetails s) (_nextTokenId s) (events s ++ [ev])).

(** Field writers. *)
Definition set_roles_hasRole (k : bytes32 * address) (v : bool) (s : State) : State :=
  mkState (<[k := v]> (_roles_hasRole s)) (_roles_adminRole s) (_owners s)
          (_balances s) (_tokenApprovals s) (_operatorApprovals s) (issuers s)
          (certificateDetails s) (_nextTokenId s) (events s).

Definition set_roles_adminRole (k v : bytes32) (s : State) : State :=
  mkState (_roles_hasRole s) (<[k := v]> (_roles_adminRole s)) (_owners s)
          (_balances s) (_tokenApprovals s) (_operatorApprovals s) (issuers s)
          (certificateDetails s) (_nextTokenId s) (events s).

Definition set_owners (k : uint256) (v : address) (s : State) : State :=
  mkState (_roles_hasRole s) (_roles_adminRole s) (<[k := v]> (_owners s))
          (_balances s) (_tokenApprovals s) (_operatorApprovals s) (issuers s)
          (certificateDetails s) (_nextTokenId s) (events s).

Definition set_balances (k : address) (v : uint256) (s : State) : State :=
  mkState (_roles_hasRole s) (_roles_adminRole s) (_owners s)
          (<[k := v]> (_balances s)) (_tokenApprovals s) (_operatorApprovals s)
          (issuers s) (certificateDetails s) (_nextTokenId s) (events s).

Definition set_tokenApprovals (k : uint256) (v : address) (s : State) : State :=
  mkState (_roles_hasRole s) (_roles_adminRole s) (_owners s) (_balances s)
          (<[k := v]> (_tokenApprovals s)) (_operatorApprovals s) (issuers s)
          (certificateDetails s) (_nextTokenId s) (events s).

Definition set_operatorApprovals (k : address * address) (v : bool) (s : State) : State :=
  mkState (_roles_hasRole s) (_roles_adminRole s) (_owners s) (_balances s)
          (_tokenApprovals s) (<[k := v]> (_operatorApprovals s)) (issuers s)
          (certificateDetails s) (_nextTokenId s) (events s).

Definition set_issuers (k : address) (v : Issuer) (s : State) : State :=
  mkState (_roles_hasRole s) (_roles_adminRole s) (_owners s) (_balances s)
          (_tokenApprovals s) (_operatorApprovals s) (<[k := v]> (issuers s))
          (certificateDetails s) (_nextTokenId s) (events s).

Definition set_certificateDetails (k : uint256) (v : CertificateData) (s : State) : State :=
  mkState (_roles_hasRole s) (_roles_adminRole s) (_owners s) (_balances s)
          (_tokenApprovals s) (_operatorApprovals s) (issuers s)
          (<[k := v]> (certificateDetails s)) (_nextTokenId s) (events s).

Definition set_nextTokenId (v : uint256) (s : State) : State :=
  mkState (_roles_hasRole s) (_roles_adminRole s) (_owners s) (_balances s)
          (_tokenApprovals s) (_operatorApprovals s) (issuers s)
          (certificateDetails s) v (events s).

(** Mapping reads. *)
Definition issuers_at (s : State) (a : address) : Issuer :=
  default Issuer_zero (issuers s !! a).

Definition certificateDetails_at (s : State) (tokenId : uint256) : CertificateData :=
  default CertificateData_zero (certificateDetails s !! tokenId).

(** ** AccessControl, as inherited *)

(** Modelled from the spec: the access-control contract is imported
    ([@openzeppelin/contracts/access/AccessControl.sol]) and its text is not
    among the sources.  Section 4.1 gives its contract: [hasRole], [grant] and
    [revoke], the latter two refused unless the caller holds the admin role of
    the target role.  The definitions follow OpenZeppelin Contracts v5, the
    release whose ERC721 has the [_update] hook this contract overrides. *)
Definition hasRole (role : bytes32) (account : address) (s : State) : bool :=
  default false (_roles_hasRole s !! (role, account)).

Definition getRoleAdmin (role : bytes32) (s : State) : bytes32 :=
  default 0 (_roles_adminRole s !! role).

Definition _checkRole (role : bytes32) (account : address) : M unit :=
  has ← gets (hasRole role account);
  revert_if (negb has) (AccessControlUnauthorizedAccount account role).

(** The [onlyRole(role)] modifier. *)
Definition onlyRole (env : Env) (role : bytes32) : M unit :=
  _checkRole role (msg_sender env).

Definition _setRoleAdmin (role adminRole : bytes32) : M unit :=
  previousAdminRole ← gets (getRoleAdmin role);
  modify (set_roles_adminRole role adminRole);;
  emit (RoleAdminChanged role previousAdminRole adminRole).

Definition _grantRole (env : Env) (role : bytes32) (account : address) : M bool :=
  has ← gets (hasRole role account);
  if negb has then
    modify (set_roles_hasRole (role, account) true);;
    emit (RoleGranted role account (msg_sender env));;
    mret true
  else mret false.

Definition _revokeRole (env : Env) (role : bytes32) (account : address) : M bool :=
  has ← gets (hasRole role account);
  if (has : bool) then
    modify (set_roles_hasRole (role, account) false);;
    emit (RoleRevoked role account (msg_sender env));;
    mret true
  else mret false.

(** Modelled from the spec: [grantRole] and [revokeRole] are the [grant] and
    [revoke] of section 4.1, open to holders of the admin role of the target
    role and failing with Unauthorized for everybody else.  They are external
    functions of the deployed contract; the deployment module calls
    [grantRole] on it. *)
Definition grantRole (env : Env) (role : bytes32) (account : address) : M unit :=
  adminRole ← gets (getRoleAdmin role);
  onlyRole env adminRole;;
  _grantRole env role account;;
  mret tt.

Definition revokeRole (env : Env) (role : bytes32) (account : address) : M unit :=
  adminRole ← gets (getRoleAdmin role);
  onlyRole env adminRole;;
  _revokeRole env role account;;
  mret tt.

Definition renounceRole (env : Env) (role : bytes32) (callerConfirmation : address) : M unit :=
  revert_if (negb (bool_decide (callerConfirmation = msg_sender env)))
            AccessControlBadConfirmation;;
  _revokeRole env role callerConfirmation;;
  mret tt.

(** ** ERC721, as inherited *)

(** Modelled from the spec: the token contract is imported
    ([@openzeppelin/contracts/token/ERC721/ERC721.sol]) and its text is not
    among the sources.  Section 4.4 calls its [_update] the single
    ownership-mutation path, with [address(0)] as the no-owner sentinel.  The
    definitions follow OpenZeppelin Contracts v5. *)
Definition _ownerOf (tokenId : uint256) (s : State) : address :=
  default 0 (_owners s !! tokenId).

Definition _getApproved (tokenId : uint256) (s : State) : address :=
  default 0 (_tokenApprovals s !! tokenId).

Definition isApprovedForAll (owner operator : address) (s : State) : bool :=
  default false (_operatorApprovals s !! (owner, operator)).

Definition balance_at (s : State) (owner : address) : uint256 :=
  default 0 (_balances s !! owner).

Definition balanceOf (owner : address) : M uint256 :=
  revert_if (bool_decide (owner = 0)) (ERC721InvalidOwner 0);;
  gets (fun s => balance_at s owner).

Definition _requireOwned (tokenId : uint256) : M address :=
  owner ← gets (_ownerOf tokenId);
  revert_if (bool_decide (owner = 0)) (ERC721NonexistentToken tokenId);;
  mret owner.

Definition ownerOf (tokenId : uint256) : M address := _requireOwned tokenId.

Definition getApproved (tokenId : uint256) : M address :=
  _requireOwned tokenId;;
  gets (_getApproved tokenId).

Definition _isAuthorized (owner spender : address) (tokenId : uint256) (s : State) : bool :=
  negb (bool_decide (spender = 0))
  && (bool_decide (owner = spender)
      || isApprovedForAll owner spender s
      || bool_decide (_getApproved tokenId s = spender)).

Definition _checkAuthorized (owner spender : address) (tokenId : uint256) : M unit :=
  ok ← gets (_isAuthorized owner spender tokenId);
  if negb ok then
    if bool_decide (owner = 0) then revert (ERC721NonexistentToken tokenId)
    else revert (ERC721InsufficientApproval spender tokenId)
  else mret tt.

Definition _approve (to : address) (tokenId : uint256) (auth : address)
    (emitEvent : bool) : M unit :=
  (if emitEvent || negb (bool_decide (auth = 0)) then
     owner ← _requireOwned tokenId;
     approvedForAll ← gets (isApprovedForAll owner auth);
     revert_if (negb (bool_decide (auth = 0))
                && negb (bool_decide (owner = auth))
                && negb approvedForAll)
               (ERC721InvalidApprover auth);;
     if emitEvent then emit (Approval owner to tokenId) else mret tt
   else mret tt);;
  modify (set_tokenApprovals tokenId to).

Definition approve (env : Env) (to : address) (tokenId : uint256) : M unit :=
  _approve to tokenId (msg_sender env) true.

Definition _setApprovalForAll (owner operator : address) (approved : bool) : M unit :=
  revert_if (bool_decide (operator = 0)) (ERC721InvalidOperator operator);;
  modify (set_operatorApprovals (owner, operator) approved);;
  emit (ApprovalForAll owner operator approved).

Definition setApprovalForAll (env : Env) (operator : address) (approved : bool) : M unit :=
  _setApprovalForAll (msg_sender env) operator approved.

(** [ERC721._update], reached from the override as [super._update].  The
    balance arithmetic sits in [unchecked] blocks and wraps. *)
Definition ERC721_update (to : address) (tokenId : uint256) (auth : address) : M address :=
  from ← gets (_ownerOf tokenId);
  (if negb (bool_decide (auth = 0)) then _checkAuthorized from auth tokenId
   else mret tt);;
  (if negb (bool_decide (from = 0)) then
     _approve 0 tokenId 0 false;;
     modify (fun s => set_balances from ((balance_at s from - 1) `mod` 2 ^ 256) s)
   else mret tt);;
  (if negb (bool_decide (to = 0)) then
     modify (fun s => set_balances to ((balance_at s to + 1) `mod` 2 ^ 256) s)
   else mret tt);;
  modify (set_owners tokenId to);;
  emit (Transfer from to tokenId);;
  mret from.

(** The acceptance check of safe transfers ([checkOnERC721Received]) for a
    recipient that answers without calling the registry: the token is
    accepted, or the check fails with ERC721InvalidReceiver.  The check
    against an arbitrary recipient is [ERC721Utils_checkOnERC721Received]. *)
Definition checkOnERC721Received (env : Env) (to : address) (tokenId : uint256) : M unit :=
  revert_if (negb (receiver_accepts env to tokenId)) (ERC721InvalidReceiver to).

(** ** CertificateNft *)

Definition constructor (env : Env) : M unit :=
  _grantRole env DEFAULT_ADMIN_ROLE (msg_sender env);;
  _grantRole env ADMIN_ROLE (msg_sender env);;
  _setRoleAdmin ISSUER_ROLE ADMIN_ROLE.

Definition _issuerExists (_issuerAddress : address) (s : State) : bool :=
  negb (bool_decide (registrationDate (issuers_at s _issuerAddress) = 0)).

Definition _certificateExists (_tokenId : uint256) (s : State) : bool :=
  negb (bool_decide (issueDate (certificateDetails_at s _tokenId) = 0)).

Definition addIssuer (env : Env) (_issuerAddress : address) (_name _website : string)
    : M unit :=
  onlyRole env ADMIN_ROLE;;
  known ← gets (_issuerExists _issuerAddress);
  require (negb known) "Certify: Issuer already exist";;
  _grantRole env ISSUER_ROLE _issuerAddress;;
  modify (set_issuers _issuerAddress
            (mkIssuer _name _website Active (block_timestamp env)));;
  emit (IssuerAdded _issuerAddress).

(** [issuers[a].status = v]: a write to one member of the stored struct. *)
Definition set_issuer_status (a : address) (v : IssuerStatus) (s : State) : State :=
  let r := issuers_at s a in
  set_issuers a (mkIssuer (name r) (website r) v (registrationDate r)) s.

Definition updateIssuerStatus (env : Env) (_issuerAddress : address)
    (_newStatus : IssuerStatus) : M unit :=
  onlyRole env ADMIN_ROLE;;
  known ← gets (_issuerExists _issuerAddress);
  require known "Certify: Issuer does not exist";;
  st ← gets (fun s => status (issuers_at s _issuerAddress));
  require (negb (bool_decide (st = Deactivated)))
          "Certify: Issuer is permanently deactivated";;
  st ← gets (fun s => status (issuers_at s _issuerAddress));
  require (negb (bool_decide (st = _newStatus)))
          "Certify: Issuer already has this status";;
  currentStatus ← gets (fun s => status (issuers_at s _issuerAddress));
  modify (set_issuer_status _issuerAddress _newStatus);;
  (if bool_decide (_newStatus = Deactivated) then
     revokeRole env ISSUER_ROLE _issuerAddress;;
     emit (IssuerRoleRevoked _issuerAddress)
   else mret tt);;
  emit (IssuerStatusUpdated _issuerAddress currentStatus _newStatus).

(** The soulbound override of the ERC721 hook. *)
Definition _update (to : address) (tokenId : uint256) (auth : address) : M address :=
  owner ← gets (_ownerOf tokenId);
  require (bool_decide (owner = 0)) "Soulbound: This token is non-transferable.";;
  ERC721_update to tokenId auth.

(** The inherited entry points that reach the hook; the call to [_update] is
    dispatched to the override. *)
Definition _mint (to : address) (tokenId : uint256) : M unit :=
  revert_if (bool_decide (to = 0)) (ERC721InvalidReceiver 0);;
  previousOwner ← _update to tokenId 0;
  revert_if (negb (bool_decide (previousOwner = 0))) (ERC721InvalidSender 0).

Definition _safeMint (env : Env) (to : address) (tokenId : uint256) : M unit :=
  _mint to tokenId;;
  checkOnERC721Received env to tokenId.

Definition transferFrom (env : Env) (from to : address) (tokenId : uint256) : M unit :=
  revert_if (bool_decide (to = 0)) (ERC721InvalidReceiver 0);;
  previousOwner ← _update to tokenId (msg_sender env);
  revert_if (negb (bool_decide (previousOwner = from)))
            (ERC721IncorrectOwner from tokenId previousOwner).

Definition safeTransferFrom (env : Env) (from to : address) (tokenId : uint256) : M unit :=
  transferFrom env from to tokenId;;
  checkOnERC721Received env to tokenId.

(** [_nextTokenId++] is checked arithmetic: it panics (code 0x11) rather than
    wrap. *)
Definition issueCertificate (env : Env) (_recipientAddress : address)
    (_recipientName _courseTitle : string) : M unit :=
  onlyRole env ISSUER_ROLE;;
  st ← gets (fun s => status (issuers_at s (msg_sender env)));
  require (bool_decide (st = Active)) "Certify: Issuer is not active";;
  tokenId ← gets _nextTokenId;
  revert_if (bool_decide (tokenId = MAX_UINT256)) (Panic 0x11);;
  modify (set_nextTokenId (tokenId + 1));;
  modify (set_certificateDetails tokenId
            (mkCertificateData _recipientName _recipientAddress (msg_sender env)
                               (block_timestamp env) _courseTitle));;
  _safeMint env _recipientAddress tokenId;;
  emit (CertificateIssued tokenId (msg_sender env) _recipientAddress).

Definition getCertificateDetails (_tokenId : uint256) : M CertificateData :=
  known ← gets (_certificateExists _tokenId);
  require known "Certify: Certificate does not exist";;
  gets (fun s => certificateDetails_at s _tokenId).

(** The getter Solidity generates for the public mapping [issuers]. *)
Definition getIssuer (identity : address) : M Issuer :=
  gets (fun s => issuers_at s identity).

(** ** Transactions *)

(** The state-changing external functions of the deployed contract. *)
Inductive Call :=
  | AddIssuer (_issuerAddress : address) (_name _website : string)
  | UpdateIssuerStatus (_issuerAddress : address) (_newStatus : IssuerStatus)
  | IssueCertificate (_recipientAddress : address) (_recipientName _courseTitle : string)
  | GrantRole (role : bytes32) (account : address)
  | RevokeRole (role : bytes32) (account : address)
  | RenounceRole (role : bytes32) (callerConfirmation : address)
  | Approve (to : address) (tokenId : uint256)
  | SetApprovalForAll (operator : address) (approved : bool)
  | TransferFrom (from to : address) (tokenId : uint256)
  | SafeTransferFrom (from to : address) (tokenId : uint256).

Definition exec (env : Env) (c : Call) : M unit :=
  match c with
  | AddIssuer a n w => addIssuer env a n w
  | UpdateIssuerStatus a st => updateIssuerStatus env a st
  | IssueCertificate r n t => issueCertificate env r n t
  | GrantRole r a => grantRole env r a
  | RevokeRole r a => revokeRole env r a
  | RenounceRole r a => renounceRole env r a
  | Approve to id => approve env to id
  | SetApprovalForAll op b => setApprovalForAll env op b
  | TransferFrom f to id => transferFrom env f to id
  | SafeTransferFrom f to id => safeTransferFrom env f to id
  end.

(** A transaction either commits the storage its code produced or, when the
    code reverts, leaves the storage it started from. *)
Definition transact (env : Env) (c : Call) (s : State) : State :=
  match exec env c s with
  | Done _ s' => s'
  | Reverted _ _ => s
  end.

(** What the caller sees: [None] on success, the failure otherwise. *)
Definition failure (env : Env) (c : Call) (s : State) : option Error :=
  match exec env c s with
  | Done _ _ => None
  | Reverted e _ => Some e
  end.

(** Deployment runs the constructor on empty storage. *)
Definition deploy (env : Env) : State :=
  match constructor env empty_storage with
  | Done _ s => s
  | Reverted _ _ => empty_storage
  end.

Definition Trace : Type := list (Env * Call).

Definition run (tr : Trace) (s : State) : State :=
  fold_left (fun st ec => transact (fst ec) (snd ec) st) tr s.

(** Number of [issueCertificate] transactions of [tr] that succeed when [tr]
    is played from [s]. *)
Fixpoint issuances (tr : Trace) (s : State) : nat :=
  match tr with
  | [] => 0%nat
  | (env, c) :: tr' =>
      ((match c, failure env c s with
        | IssueCertificate _ _ _, None => 1
        | _, _ => 0
        end) + issuances tr' (transact env c s))%nat
  end.

(** The identifiers carried by the [CertificateIssued] events of a log, in the
    order of emission. *)
Fixpoint issued_ids (evs : list Event) : list uint256 :=
  match evs with
  | [] => []
  | CertificateIssued tokenId _ _ :: evs' => tokenId :: issued_ids evs'
  | _ :: evs' => issued_ids evs'
  end.

(** ** A sample history *)

(** Account 1 deploys the registry and admits account 2 as an issuer, which
    then certifies account 7. *)
Definition always_accepts : address -> uint256 -> bool := fun _ _ => true.

Definition admin_env : Env := mkEnv 1 100 always_accepts.
Definition issuer_env : Env := mkEnv 2 200 always_accepts.
Definition holder_env : Env := mkEnv 7 300 always_accepts.

Definition history_added : Trace :=
  [(admin_env, AddIssuer 2 "Uni" "uni.example")].

Definition history_issued : Trace :=
  history_added ++ [(issuer_env, IssueCertificate 7 "Bob" "Algorithms 101")].

Definition history_deactivated : Trace :=
  history_issued ++ [(admin_env, UpdateIssuerStatus 2 Deactivated)].

(** [minted_by tr s0 id rec]: somewhere in [tr], played from [s0], a
    successful [issueCertificate] was sent by the issuer recorded in [rec], at
    the recorded time, for the recorded recipient, name and title, and at that
    point the counter stood at [id]. *)
Definition minted_by (tr : Trace) (s0 : State) (id : uint256)
    (rec : CertificateData) : Prop :=
  exists (tr1 : Trace) (env : Env) (tr2 : Trace),
    tr = tr1 ++ [(env, IssueCertificate (recipientAddress rec) (recipientName rec)
                                        (courseTitle rec))] ++ tr2 /\
    failure env (IssueCertificate (recipientAddress rec) (recipientName rec)
                                  (courseTitle rec)) (run tr1 s0) = None /\
    _nextTokenId (run tr1 s0) = id /\
    msg_sender env = issuerAddress rec /\
    block_timestamp env = issueDate rec.

(** Every transaction of the history is sent from a real account. *)
Definition senders_nonzero (tr : Trace) : Prop :=
  Forall (fun ec : Env * Call => msg_sender (fst ec) ≠ 0) tr.

(** Number of [CertificateIssued] events of a log whose recipient is [a]. *)
Fixpoint issued_to (a : address) (evs : list Event) : nat :=
  match evs with
  | [] => 0%nat
  | CertificateIssued _ _ r :: evs' =>
      ((if bool_decide (r = a) then 1 else 0) + issued_to a evs')%nat
  | _ :: evs' => issued_to a evs'
  end.

(** The token ledger is dense below the counter: the counter fits [uint256];
    a token has an owner, and a record is stored, exactly for the identifiers
    below the counter; the balance of an account is the number of
    certificates issued to it. *)
Definition ledger_dense (s : State) : Prop :=
  0 <= _nextTokenId s <= MAX_UINT256 /\
  (forall id, _ownerOf id s ≠ 0 <-> 0 <= id < _nextTokenId s) /\
  (forall id, is_Some (certificateDetails s !! id) <-> 0 <= id < _nextTokenId s) /\
  (forall a, balance_at s a = Z.of_nat (issued_to a (events s))).

(** ** Recipients that are contracts *)

(** Modelled from the spec: the acceptance check belongs to the imported
    token contract ([@openzeppelin/contracts/token/ERC721/ERC721.sol] and its
    [ERC721Utils] library), whose text is not among the sources; section 4.3
    describes the issuance and leaves the check out.  The definitions follow
    OpenZeppelin Contracts v5: a recipient with code is called at
    [onERC721Received]; a wrong return value and a revert without data are
    turned into ERC721InvalidReceiver, and a revert with data is raised again
    unchanged. *)
Inductive Answer :=
  | ReturnsSelector                (* the expected selector; an account
                                      without code is not called and counts
                                      as this *)
  | ReturnsOther                   (* any other return value *)
  | RevertsEmpty                   (* a revert without data *)
  | RevertsWith (reason : Error).  (* a revert with data *)

(** What the recipient does when it is called.  Before it answers it may call
    the registry, directly or through other contracts: [Reenters sender c
    inner rest] makes the call [c] with [msg.sender = sender] (the recipient
    of a mint made by [c] behaves as [inner]), goes on whether or not that
    call failed, and continues as [rest].  A recipient that lets a failed
    call propagate is one that answers [RevertsWith]. *)
Inductive Receiver :=
  | Answers (a : Answer)
  | Reenters (sender : address) (c : Call) (inner rest : Receiver).

Fixpoint final_answer (r : Receiver) : Answer :=
  match r with
  | Answers a => a
  | Reenters _ _ _ rest => final_answer rest
  end.

(** The storage an outcome carries. *)
Definition state_of {A} (o : Outcome A) : State :=
  match o with
  | Done _ s => s
  | Reverted _ s => s
  end.

(** A call made from within another call: when it reverts, its writes are
    discarded and the caller goes on. *)
Definition caught (m : M unit) : M unit :=
  fun s => match m s with
           | Done _ s' => Done tt s'
           | Reverted _ _ => Done tt s
           end.

(** The nested call runs in the same block. *)
Definition with_sender (env : Env) (sender : address) : Env :=
  mkEnv sender (block_timestamp env) (receiver_accepts env).

(** The entry points that make the acceptance check, with the check as a
    parameter.  The bodies are those of [_safeMint], [safeTransferFrom] and
    [issueCertificate]. *)
Definition _safeMint_with (check : address -> uint256 -> M unit)
    (to : address) (tokenId : uint256) : M unit :=
  _mint to tokenId;;
  check to tokenId.

Definition safeTransferFrom_with (check : address -> uint256 -> M unit)
    (env : Env) (from to : address) (tokenId : uint256) : M unit :=
  transferFrom env from to tokenId;;
  check to tokenId.

Definition issueCertificate_with (check : address -> uint256 -> M unit)
    (env : Env) (_recipientAddress : address)
    (_recipientName _courseTitle : string) : M unit :=
  onlyRole env ISSUER_ROLE;;
  st ← gets (fun s => status (issuers_at s (msg_sender env)));
  require (bool_decide (st = Active)) "Certify: Issuer is not active";;
  tokenId ← gets _nextTokenId;
  revert_if (bool_decide (tokenId = MAX_UINT256)) (Panic 0x11);;
  modify (set_nextTokenId (tokenId + 1));;
  modify (set_certificateDetails tokenId
            (mkCertificateData _recipientName _recipientAddress (msg_sender env)
                               (block_timestamp env) _courseTitle));;
  _safeMint_with check _recipientAddress tokenId;;
  emit (CertificateIssued tokenId (msg_sender env) _recipientAddress).

Definition exec_with (check : address -> uint256 -> M unit) (env : Env)
    (c : Call) : M unit :=
  match c with
  | AddIssuer a n w => addIssuer env a n w
  | UpdateIssuerStatus a st => updateIssuerStatus env a st
  | IssueCertificate r n t => issueCertificate_with check env r n t
  | GrantRole r a => grantRole env r a
  | RevokeRole r a => revokeRole env r a
  | RenounceRole r a => renounceRole env r a
  | Approve to id => approve env to id
  | SetApprovalForAll op b => setApprovalForAll env op b
  | TransferFrom f to id => transferFrom env f to id
  | SafeTransferFrom f to id => safeTransferFrom_with check env f to id
  end.

(** [ERC721Utils.checkOnERC721Received] against the recipient [r]. *)
Fixpoint ERC721Utils_checkOnERC721Received (env : Env) (r : Receiver)
    (to : address) (tokenId : uint256) {struct r} : M unit :=
  match r with
  | Answers ReturnsSelector => mret tt
  | Answers ReturnsOther => revert (ERC721InvalidReceiver to)
  | Answers RevertsEmpty => revert (ERC721InvalidReceiver to)
  | Answers (RevertsWith reason) => revert reason
  | Reenters sender c inner rest =>
      caught (exec_with (ERC721Utils_checkOnERC721Received
                           (with_sender env sender) inner)
                        (with_sender env sender) c);;
      ERC721Utils_checkOnERC721Received env rest to tokenId
  end.

(** A call whose mint or safe transfer goes to a recipient behaving as [r].
    [receiver_accepts] of [env] is not consulted. *)
Definition rexec (env : Env) (r : Receiver) (c : Call) : M unit :=
  exec_with (ERC721Utils_checkOnERC721Received env r) env c.

Definition rtransact (env : Env) (r : Receiver) (c : Call) (s : State) : State :=
  match rexec env r c s with
  | Done _ s' => s'
  | Reverted _ _ => s
  end.

Definition rfailure (env : Env) (r : Receiver) (c : Call) (s : State)
    : option Error :=
  match rexec env r c s with
  | Done _ _ => None
  | Reverted e _ => Some e
  end.

Definition RTrace : Type := list (Env * Receiver * Call).

Definition rrun (tr : RTrace) (s : State) : State :=
  fold_left (fun st x => rtransact (fst (fst x)) (snd (fst x)) (snd x) st) tr s.

(** Histories in which no recipient calls the registry, and the same
    histories with the recipients' answers put as [receiver_accepts]. *)
Definition answers_only (r : Receiver) : bool :=
  match r with
  | Answers _ => true
  | Reenters _ _ _ _ => false
  end.

Definition no_reentry (tr : RTrace) : Prop :=
  Forall (fun x : Env * Receiver * Call => answers_only (snd (fst x)) = true) tr.

Definition accepts (r : Receiver) : bool :=
  match final_answer r with
  | ReturnsSelector => true
  | _ => false
  end.

Definition sequential (tr : RTrace) : Trace :=
  (fun x : Env * Receiver * Call =>
     (mkEnv (msg_sender (fst (fst x))) (block_timestamp (fst (fst x)))
            (fun _ _ => accepts (snd (fst x))),
      snd x)) <$> tr.

(** [allocates s s']: from [s] to [s'] the counter has advanced, and the
    identifiers logged meanwhile are the counter values passed through, each
    once, in some order. *)
Definition allocates (s s' : State) : Prop :=
  _nextTokenId s <= _nextTokenId s' /\
  exists new,
    issued_ids (events s') = issued_ids (events s) ++ new /\
    new ≡ₚ seqZ (_nextTokenId s) (_nextTokenId s' - _nextTokenId s).

(** [frozen s s']: the tokens owned in [s] have the same owner and the same
    record in [s']. *)
Definition frozen (s s' : State) : Prop :=
  forall id, _ownerOf id s ≠ 0 ->
    _ownerOf id s' = _ownerOf id s /\
    certificateDetails s' !! id = certificateDetails s !! id.

(** A history with a call-back.  Accounts 2 and 5 are admitted as issuers.
    Account 5 is a contract: on receiving its certificate from account 2 it
    issues one to account 7 and then accepts. *)
Definition issuers_added : RTrace :=
  [(admin_env, Answers ReturnsSelector, AddIssuer 2 "Uni" "uni.example");
   (admin_env, Answers ReturnsSelector, AddIssuer 5 "Academy" "academy.example")].

Definition calls_back : Receiver :=
  Reenters 5 (IssueCertificate 7 "Bob" "Logic") (Answers ReturnsSelector)
           (Answers ReturnsSelector).

Definition reentrant_history : RTrace :=
  issuers_added ++
  [(issuer_env, calls_back, IssueCertificate 5 "Academy" "Algorithms 101")].

(** The same recipient, reverting with a reason of its own after its nested
    issuance went through. *)
Definition calls_back_and_reverts : Receiver :=
  Reenters 5 (IssueCertificate 7 "Bob" "Logic") (Answers ReturnsSelector)
           (Answers (RevertsWith (RequireFailed "Academy: not now"))).

(** ** The deployment module ([ignition/modules/DeployCertify.ts]) *)

(** [m.readEventArgument(certificateNft, "RoleAdminChanged", "newAdminRole")]:
    the argument of the first such event logged by the deployment. *)
Fixpoint readEventArgument_newAdminRole (evs : list Event) : option bytes32 :=
  match evs with
  | [] => None
  | RoleAdminChanged _ _ newAdminRole :: _ => Some newAdminRole
  | _ :: evs' => readEventArgument_newAdminRole evs'
  end.

(** [ethers.ZeroHash] *)
Definition ZeroHash : bytes32 := 0.

(** The module deploys the registry, deploys the faucet with the registry's
    address (the faucet's address is [demoRoleFaucet]; its constructor is
    taken not to call the registry), reads the admin role off the deployment
    log and makes the two [grantRole] calls, all from the deployer's account.
    [None] stands for a failed deployment: the event is missing or a call
    reverts. *)
Definition CertifyModule (deployer : address) (t0 t1 t2 : uint256)
    (accepts : address -> uint256 -> bool) (demoRoleFaucet : address)
    : option State :=
  let certificateNft := deploy (mkEnv deployer t0 accepts) in
  match readEventArgument_newAdminRole (events certificateNft) with
  | None => None
  | Some adminRole =>
      let defaultAdminRole := ZeroHash in
      match exec (mkEnv deployer t1 accepts)
                 (GrantRole adminRole demoRoleFaucet) certificateNft with
      | Reverted _ _ => None
      | Done _ s1 =>
          match exec (mkEnv deployer t2 accepts)
                     (GrantRole defaultAdminRole demoRoleFaucet) s1 with
          | Reverted _ _ => None
          | Done _ s2 => Some s2
          end
      end
  end.

(** ** The certificate hook ([frontend/src/hooks/useWeb3.ts]) *)

(** What [useCertificateData] keeps: [data], [isLoading], [error].  The two
    dates of [CertificateData] are strings made by
    [new Date(Number(x) * 1000).toLocaleDateString()], which depends on the
    locale of the browser; the conversion is a parameter of the model. *)
Record CertificateView := mkCertificateView {
  view_courseTitle : string;
  view_recipientName : string;
  view_recipientAddress : address;
  view_issueDate : string;
  view_tokenId : uint256;
  view_issuerAddress : address;
  view_issuerName : string;
  view_website : string;
  view_issuerStatus : IssuerStatus;
  view_registrationDate : string
}.

(** A [BigNumberish] argument: a value that stands for an integer (a bigint,
    a safe integral number, a numeric string) or one that does not. *)
Inductive BigNumberish :=
  | IntegerValue (z : Z)
  | NotAnInteger.

Inductive HookError :=
  | ContractNotReady                 (* "Contract not ready or Token ID is missing." *)
  | CertificateNotFound (tokenId : uint256)
                                     (* "A certificate with ID #... could not be found." *)
  | InvalidArgument                  (* ethers' INVALID_ARGUMENT: the argument
                                        does not encode as uint256 *)
  | CallFailed (e : Error).          (* a contract call rejected *)

Record HookState := mkHookState {
  data : option CertificateView;
  isLoading : bool;
  error : option HookError
}.

(** [fetchAllDetails(_tokenId)].  [contract] is [None] for a null or
    undefined contract handle and otherwise the storage the handle reads (the
    three reads are taken against one block); [_tokenId] is [None] for null
    or undefined.  The contract handle encodes the argument as [uint256]
    before it sends the first call and throws when the value is not an
    integer of that range; the throw is caught like a rejected call. *)
Definition fetchAllDetails (toLocaleDateString : uint256 -> string)
    (contract : option State) (_tokenId : option BigNumberish) (h : HookState)
    : HookState :=
  match contract, _tokenId with
  | Some s, Some NotAnInteger => mkHookState None false (Some InvalidArgument)
  | Some s, Some (IntegerValue tokenId) =>
      (* setIsLoading(true); setError(null); setData(null);
         try { ... } catch (err) { setError(err) } finally { setIsLoading(false) } *)
      if negb (bool_decide (0 <= tokenId <= MAX_UINT256))
      then mkHookState None false (Some InvalidArgument)
      else
      match getCertificateDetails tokenId s with
      | Reverted e _ => mkHookState None false (Some (CallFailed e))
      | Done certifDetail _ =>
          if bool_decide (issuerAddress certifDetail = 0)
          then mkHookState None false (Some (CertificateNotFound tokenId))
          else
            match getIssuer (issuerAddress certifDetail) s with
            | Reverted e _ => mkHookState None false (Some (CallFailed e))
            | Done issuerDetail _ =>
                match ownerOf tokenId s with
                | Reverted e _ => mkHookState None false (Some (CallFailed e))
                | Done ownerAddress _ =>
                    mkHookState
                      (Some (mkCertificateView
                               (courseTitle certifDetail)
                               (recipientName certifDetail)
                               ownerAddress
                               (toLocaleDateString (issueDate certifDetail))
                               tokenId
                               (issuerAddress certifDetail)
                               (name issuerDetail)
                               (website issuerDetail)
                               (status issuerDetail)
                               (toLocaleDateString (registrationDate issuerDetail))))
                      false None
                end
            end
      end
  | _, _ =>
      (* setError(new Error(...)); return; *)
      mkHookState (data h) (isLoading h) (Some ContractNotReady)
  end.

(** * Properties *)

(** ** Proof support *)

Ltac munfold :=
  unfold emit, require, revert_if in *;
  unfold mbind, M_bind, mret, M_ret in *;
  unfold bind, ret, revert, gets, modify in *.

Ltac sol_unfold :=
  unfold exec in *;
  unfold safeTransferFrom in *;
  unfold transferFrom, issueCertificate, updateIssuerStatus, addIssuer,
         getCertificateDetails, getIssuer, approve, setApprovalForAll,
         renounceRole in *;
  unfold _safeMint, grantRole, revokeRole in *;
  unfold _mint, checkOnERC721Received, _setApprovalForAll, onlyRole in *;
  unfold _update, _checkRole, _grantRole, _revokeRole, _setRoleAdmin in *;
  unfold ERC721_update in *;
  unfold _approve, _checkAuthorized in *;
  unfold _requireOwned in *;
  munfold.

(** Split on every test met on the way through a function body. *)
Ltac paths :=
  repeat (simpl in *;
          match goal with
          | H : context [if ?b then _ else _] |- _ =>
              let E := fresh "E" in destruct b eqn:E
          | |- context [if ?b then _ else _] =>
              let E := fresh "E" in destruct b eqn:E
          end);
  simpl in *.

Ltac bools :=
  repeat match goal with
         | H : negb _ = true |- _ => apply negb_true_iff in H
         | H : negb _ = false |- _ => apply negb_false_iff in H
         | H : bool_decide _ = true |- _ => apply bool_decide_eq_true_1 in H
         | H : bool_decide _ = false |- _ => apply bool_decide_eq_false_1 in H
         | H : _ && _ = true |- _ => apply andb_true_iff in H; destruct H
         | H : _ || _ = false |- _ => apply orb_false_iff in H; destruct H
         end.

(** *** The ownership hook *)

Lemma _update_owned to tokenId auth s :
  _ownerOf tokenId s ≠ 0 ->
  _update to tokenId auth s = Reverted TransferForbidden s.
Proof.
  intros Hown. sol_unfold. rewrite bool_decide_eq_false_2 by done. done.
Qed.

Lemma _update_Done to tokenId auth s r s' :
  _update to tokenId auth s = Done r s' ->
  _ownerOf tokenId s = 0 /\ r = 0 /\
  _ownerOf tokenId s' = to /\
  (forall id, id ≠ tokenId -> _ownerOf id s' = _ownerOf id s) /\
  _roles_hasRole s' = _roles_hasRole s /\
  _roles_adminRole s' = _roles_adminRole s /\
  issuers s' = issuers s /\
  certificateDetails s' = certificateDetails s /\
  _nextTokenId s' = _nextTokenId s /\
  events s' = events s ++ [Transfer 0 to tokenId].
Proof.
  sol_unfold. intros H. paths; bools; simplify_eq; simpl.
  all: unfold _ownerOf in *; simpl.
  all: rewrite ?lookup_insert_eq; repeat split; try done.
  all: try (intros id Hid; rewrite lookup_insert_ne; done).
  all: try congruence.
Qed.

(** *** What a committed transaction may have changed *)

Ltac frame_solve :=
  intros; sol_unfold; paths; unfold _issuerExists, _certificateExists in *;
  bools; simplify_eq; simpl;
  unfold _ownerOf, hasRole, getRoleAdmin, issuers_at, certificateDetails_at,
         set_issuer_status, set_roles_hasRole, set_roles_adminRole, set_owners,
         set_balances, set_tokenApprovals, set_operatorApprovals, set_issuers,
         set_certificateDetails, set_nextTokenId in *; simpl in *;
  simplify_eq; simpl in *;
  rewrite ?lookup_insert_eq in *; simpl in *;
  try done; try congruence.

(** An owned token keeps its owner. *)
Lemma exec_owner_frozen env c s s' id :
  _ownerOf id s ≠ 0 ->
  exec env c s = Done tt s' ->
  _ownerOf id s' = _ownerOf id s.
Proof.
  intros Hown H. destruct c; revert H; frame_solve.
  all: rewrite lookup_insert; case_decide; simplify_eq; done.
Qed.

Lemma transact_cases env c s :
  (exec env c s = Done tt (transact env c s) /\ failure env c s = None)
  \/ (transact env c s = s /\ exists e p, exec env c s = Reverted e p
                                     /\ failure env c s = Some e).
Proof.
  unfold transact, failure. destruct (exec env c s) as [[] s'|e p].
  - by left.
  - right. split; [done|]. by exists e, p.
Qed.

Lemma transact_owner_frozen env c s id :
  _ownerOf id s ≠ 0 -> _ownerOf id (transact env c s) = _ownerOf id s.
Proof.
  intros Hown. destruct (transact_cases env c s) as [[H _]|[-> _]]; [|done].
  by eapply exec_owner_frozen.
Qed.

Lemma run_owner_frozen tr s id :
  _ownerOf id s ≠ 0 -> _ownerOf id (run tr s) = _ownerOf id s.
Proof.
  revert s. induction tr as [|[env c] tr IH]; intros s Hown; [done|].
  simpl. rewrite IH; rewrite transact_owner_frozen; done.
Qed.

(** What a successful issuance does. *)
Lemma issueCertificate_Done env to n t s s' :
  issueCertificate env to n t s = Done tt s' ->
  let k := _nextTokenId s in
  hasRole ISSUER_ROLE (msg_sender env) s = true /\
  status (issuers_at s (msg_sender env)) = Active /\
  k ≠ MAX_UINT256 /\ to ≠ 0 /\ _ownerOf k s = 0 /\
  receiver_accepts env to k = true /\
  _nextTokenId s' = k + 1 /\
  certificateDetails s' =
    <[k := mkCertificateData n to (msg_sender env) (block_timestamp env) t]>
      (certificateDetails s) /\
  _ownerOf k s' = to /\
  issuers s' = issuers s /\
  _roles_hasRole s' = _roles_hasRole s /\
  _roles_adminRole s' = _roles_adminRole s /\
  events s' = events s ++ [Transfer 0 to k; CertificateIssued k (msg_sender env) to].
Proof.
  frame_solve. rewrite <- app_assoc. simpl.
  repeat split; try done. by rewrite E3.
Qed.

(** Every other committed call leaves the ledger and its counter alone. *)
Lemma exec_ledger_frame env c s s' :
  (forall to n t, c ≠ IssueCertificate to n t) ->
  exec env c s = Done tt s' ->
  certificateDetails s' = certificateDetails s /\ _nextTokenId s' = _nextTokenId s.
Proof.
  intros Hc H. destruct c; try (by exfalso; eapply Hc); clear Hc; revert H;
    frame_solve.
Qed.

(** The log only grows. *)
Lemma exec_events_mono env c s s' :
  exec env c s = Done tt s' -> exists evs, events s' = events s ++ evs.
Proof.
  intros H. destruct c; revert H; frame_solve;
    rewrite <- ?app_assoc; eauto.
  all: try (by exists []; rewrite app_nil_r).
Qed.

Lemma issued_ids_app evs1 evs2 :
  issued_ids (evs1 ++ evs2) = issued_ids evs1 ++ issued_ids evs2.
Proof.
  induction evs1 as [|ev evs1 IH]; [done|].
  destruct ev; simpl; by rewrite ?IH.
Qed.

(** Only [issueCertificate] logs a [CertificateIssued] event. *)
Lemma exec_issued_ids_frame env c s s' :
  (forall to n t, c ≠ IssueCertificate to n t) ->
  exec env c s = Done tt s' ->
  issued_ids (events s') = issued_ids (events s).
Proof.
  intros Hc H. destruct c; try (by exfalso; eapply Hc); clear Hc; revert H;
    frame_solve; rewrite ?issued_ids_app; simpl; by rewrite ?app_nil_r.
Qed.

Lemma transact_events_mono env c s ev :
  ev ∈ events s -> ev ∈ events (transact env c s).
Proof.
  intros Hin. destruct (transact_cases env c s) as [[H _]|[-> _]]; [|done].
  apply exec_events_mono in H as [evs ->]. set_solver.
Qed.

(** *** Traces *)

Lemma run_snoc tr env c s :
  run (tr ++ [(env, c)]) s = transact env c (run tr s).
Proof. unfold run. by rewrite fold_left_app. Qed.

Lemma issuances_snoc tr env c s :
  issuances (tr ++ [(env, c)]) s =
  (issuances tr s +
   match c, failure env c (run tr s) with
   | IssueCertificate _ _ _, None => 1
   | _, _ => 0
   end)%nat.
Proof.
  revert s. induction tr as [|[env' c'] tr IH]; intros s; simpl.
  - lia.
  - rewrite IH. lia.
Qed.

Lemma deploy_storage env :
  _nextTokenId (deploy env) = 0 /\ certificateDetails (deploy env) = ∅ /\
  issuers (deploy env) = ∅ /\ _owners (deploy env) = ∅ /\
  issued_ids (events (deploy env)) = [] /\
  getRoleAdmin ISSUER_ROLE (deploy env) = ADMIN_ROLE /\
  hasRole ADMIN_ROLE (msg_sender env) (deploy env) = true.
Proof.
  unfold deploy, constructor. sol_unfold. unfold empty_storage, hasRole.
  simpl. rewrite lookup_empty. simpl.
  unfold set_roles_hasRole; simpl.
  destruct (<[(DEFAULT_ADMIN_ROLE, msg_sender env):=true]> ∅
              !! (ADMIN_ROLE, msg_sender env)) as [[]|] eqn:E; simpl;
    unfold getRoleAdmin, hasRole; simpl;
    rewrite ?lookup_insert_eq; repeat split; try done.
  rewrite lookup_insert_ne in E by done. by rewrite lookup_empty in E.
Qed.

(** The counter runs with the number of committed issuances, and the logged
    identifiers are the counter values passed through. *)
Lemma run_counter tr s :
  _nextTokenId (run tr s) = _nextTokenId s + Z.of_nat (issuances tr s) /\
  issued_ids (events (run tr s)) =
    issued_ids (events s) ++
    ((fun i => _nextTokenId s + Z.of_nat i) <$> seq 0 (issuances tr s)).
Proof.
  induction tr as [|[env c] tr [IHn IHe]] using rev_ind; simpl.
  - split; [lia|]. by rewrite app_nil_r.
  - rewrite run_snoc, issuances_snoc.
    destruct (transact_cases env c (run tr s)) as [[H Hf]|[Hs (e & p & _ & Hf)]].
    + destruct c; rewrite ?Hf;
        try (apply exec_ledger_frame in H as Hl; [|done];
             apply exec_issued_ids_frame in H; [|done];
             destruct Hl as [_ ->]; rewrite H, Nat.add_0_r; done).
      apply issueCertificate_Done in H. simpl in H.
      destruct H as (_&_&_&_&_&_&Hn&_&_&_&_&_&He).
      rewrite Hn, He, issued_ids_app, IHe, IHn. simpl. split; [lia|].
      rewrite seq_app, fmap_app, app_assoc. done.
    + rewrite Hs. destruct c; rewrite ?Hf, Nat.add_0_r; done.
Qed.

(** *** Issuer records and roles *)

(** The admin role of every role is fixed once the contract is deployed. *)
Lemma exec_adminRole_frame env c s s' :
  exec env c s = Done tt s' -> _roles_adminRole s' = _roles_adminRole s.
Proof. intros H. destruct c; revert H; frame_solve. Qed.

(** A stored credential is never written again once its token has an owner. *)
Lemma exec_record_frozen env c s s' id :
  _ownerOf id s ≠ 0 ->
  exec env c s = Done tt s' ->
  certificateDetails s' !! id = certificateDetails s !! id.
Proof.
  intros Hown H. destruct c;
    try (apply exec_ledger_frame in H as [-> _]; done).
  apply issueCertificate_Done in H. simpl in H.
  destruct H as (_&_&_&_&Hk&_&_&->&_).
  rewrite lookup_insert_ne; [done|]. intros <-. done.
Qed.

Lemma updateIssuerStatus_Done env a st s s' :
  updateIssuerStatus env a st s = Done tt s' ->
  let r := issuers_at s a in
  hasRole ADMIN_ROLE (msg_sender env) s = true /\
  _issuerExists a s = true /\
  status r ≠ Deactivated /\ status r ≠ st /\
  issuers s' = <[a := mkIssuer (name r) (website r) st (registrationDate r)]> (issuers s) /\
  certificateDetails s' = certificateDetails s /\
  _nextTokenId s' = _nextTokenId s /\
  _owners s' = _owners s /\ _balances s' = _balances s /\
  _tokenApprovals s' = _tokenApprovals s /\
  _operatorApprovals s' = _operatorApprovals s /\
  _roles_adminRole s' = _roles_adminRole s /\
  (st ≠ Deactivated -> _roles_hasRole s' = _roles_hasRole s) /\
  (st = Deactivated ->
     hasRole ISSUER_ROLE a s' = false /\
     forall role account, (role, account) ≠ (ISSUER_ROLE, a) ->
       hasRole role account s' = hasRole role account s).
Proof.
  intros H. unfold _issuerExists. revert H. frame_solve.
  all: repeat split; try done.
  all: try (by apply negb_true_iff, bool_decide_eq_false_2).
  all: try (intros role account Hne; by rewrite lookup_insert_ne).
Qed.

Lemma addIssuer_Done env a n w s s' :
  addIssuer env a n w s = Done tt s' ->
  hasRole ADMIN_ROLE (msg_sender env) s = true /\
  _issuerExists a s = false /\
  issuers s' = <[a := mkIssuer n w Active (block_timestamp env)]> (issuers s) /\
  hasRole ISSUER_ROLE a s' = true /\
  (forall role account, (role, account) ≠ (ISSUER_ROLE, a) ->
     hasRole role account s' = hasRole role account s) /\
  exists evs, events s' = events s ++ evs ++ [IssuerAdded a].
Proof.
  intros H. revert H. frame_solve.
  all: repeat split; try done.
  all: try (intros role account Hne; by rewrite lookup_insert_ne).
  all: try (by apply negb_false_iff, bool_decide_eq_true_2).
  - eexists [_]. by rewrite <- app_assoc.
  - by exists [].
Qed.

(** Issuer records are written by [addIssuer] and [updateIssuerStatus] only. *)
Lemma exec_issuers_frame env c s s' :
  (forall a n w, c ≠ AddIssuer a n w) ->
  (forall a st, c ≠ UpdateIssuerStatus a st) ->
  exec env c s = Done tt s' -> issuers s' = issuers s.
Proof.
  intros Ha Hu H.
  destruct c; try (by exfalso; eapply Ha); try (by exfalso; eapply Hu);
    clear Ha Hu; revert H; frame_solve.
Qed.

(** The Issuer role of a registered identity is granted by [grantRole]
    alone. *)
Lemma exec_issuer_role_stays_off env c s s' a :
  _issuerExists a s = true ->
  hasRole ISSUER_ROLE a s = false ->
  c ≠ GrantRole ISSUER_ROLE a ->
  exec env c s = Done tt s' ->
  hasRole ISSUER_ROLE a s' = false.
Proof.
  intros Hex Hrole Hc H. unfold _issuerExists in Hex.
  destruct c; revert H; frame_solve.
  all: try (rewrite lookup_insert; case_decide; simplify_eq; done).
Qed.

(** ** Non-transferability *)

(** Transfers to [address(0)] are turned away by the argument check of the
    inherited entry point, before the hook is reached. *)
Lemma transfer_to_zero_refused env from tokenId s :
  failure env (TransferFrom from 0 tokenId) s = Some (ERC721InvalidReceiver 0) /\
  failure env (SafeTransferFrom from 0 tokenId) s = Some (ERC721InvalidReceiver 0).
Proof. done. Qed.

Lemma transfer_owned_refused env from to tokenId s :
  _ownerOf tokenId s ≠ 0 -> to ≠ 0 ->
  failure env (TransferFrom from to tokenId) s = Some TransferForbidden /\
  failure env (SafeTransferFrom from to tokenId) s = Some TransferForbidden.
Proof.
  intros Hown Hto. unfold failure, exec, safeTransferFrom, transferFrom.
  munfold. rewrite bool_decide_eq_false_2 by done.
  pose proof (_update_owned to tokenId (msg_sender env) s Hown) as Hu.
  munfold. rewrite Hu. done.
Qed.

(** C1. Once [issueCertificate] has minted an identifier, its owner is the
    recipient for good: after any further history every call of the ownership
    hook [_update] for that identifier reverts with TransferForbidden, whoever
    calls and whatever roles they hold, so do the public transfer entry
    points, and no transaction changes the owner.  The hook lets a call
    through only when the prior owner is [address(0)]. *)
Theorem C1_soulbound_after_mint env to n t s s1 tr :
  exec env (IssueCertificate to n t) s = Done tt s1 ->
  let id := _nextTokenId s in
  let s2 := run tr s1 in
  to ≠ 0 /\ _ownerOf id s2 = to /\
  (forall to' auth, _update to' id auth s2 = Reverted TransferForbidden s2) /\
  (forall env' from to', to' ≠ 0 ->
     failure env' (TransferFrom from to' id) s2 = Some TransferForbidden /\
     failure env' (SafeTransferFrom from to' id) s2 = Some TransferForbidden) /\
  (forall env' c, _ownerOf id (transact env' c s2) = to) /\
  (forall s0 to' tokenId auth r s', _update to' tokenId auth s0 = Done r s' ->
     _ownerOf tokenId s0 = 0).
Proof.
  intros H id s2. apply issueCertificate_Done in H. simpl in H.
  destruct H as (_&_&_&Hto&_&_&_&_&Hown&_).
  assert (Hs2 : _ownerOf id s2 = to).
  { unfold s2. rewrite run_owner_frozen; unfold id; congruence. }
  assert (Hne : _ownerOf id s2 ≠ 0) by congruence.
  repeat split; try done.
  - intros. by apply _update_owned.
  - by apply transfer_owned_refused.
  - by apply transfer_owned_refused.
  - intros. by rewrite transact_owner_frozen.
  - intros s0 to' tokenId auth r s' Hu. by apply _update_Done in Hu as [? _].
Qed.

Lemma C1_soulbound_after_mint_witness :
  _ownerOf 0 (run [(holder_env, TransferFrom 7 8 0); (admin_env, TransferFrom 7 1 0)]
                  (run history_issued (deploy admin_env))) = 7.
Proof.
  refine (proj1 (proj2 (C1_soulbound_after_mint issuer_env 7 "Bob" "Algorithms 101"
            (run history_added (deploy admin_env))
            (run history_issued (deploy admin_env))
            [(holder_env, TransferFrom 7 8 0); (admin_env, TransferFrom 7 1 0)] _))).
  vm_compute. reflexivity.
Defined.

(** ** Reverts raised after writes *)

(** The code of an issuance to [address(0)] has advanced the counter and
    stored the record by the time the mint is refused; the transaction
    leaves nothing of it. *)
Example issue_to_zero_reverts_after_writes :
  exists p, exec issuer_env (IssueCertificate 0 "Bob" "Algorithms 101")
                 (run history_added (deploy admin_env))
            = Reverted (ERC721InvalidReceiver 0) p
            /\ _nextTokenId p = 1
            /\ _nextTokenId (run history_added (deploy admin_env)) = 0.
Proof. eexists. vm_compute. repeat split; reflexivity. Qed.

(** Likewise for a deactivation whose role revocation is refused (here in a
    storage where the admin role of the Issuer role is held by nobody): the
    status was already written when the revert is raised. *)
Example deactivation_reverts_after_status_write :
  let s := set_roles_adminRole ISSUER_ROLE 5 (run history_added (deploy admin_env)) in
  exists p, exec admin_env (UpdateIssuerStatus 2 Deactivated) s
            = Reverted (Unauthorized 1 5) p
            /\ status (issuers_at p 2) = Deactivated
            /\ status (issuers_at s 2) = Active
            /\ transact admin_env (UpdateIssuerStatus 2 Deactivated) s = s.
Proof. eexists. vm_compute. repeat split; reflexivity. Qed.

(** ** Issuer lifecycle *)

(** C9. A successful [updateIssuerStatus] rewrites the status member of the
    target record and nothing else: the other members of that record, the
    records of all other identities, the credential table, the counter and
    the token bookkeeping are as before.  Role membership is as before unless
    the new status is Deactivated, when the Issuer role of the target, and no
    other membership, is switched off. *)
Theorem C9_status_update_frame env a st s s' :
  exec env (UpdateIssuerStatus a st) s = Done tt s' ->
  let r := issuers_at s a in
  status (issuers_at s' a) = st /\
  name (issuers_at s' a) = name r /\
  website (issuers_at s' a) = website r /\
  registrationDate (issuers_at s' a) = registrationDate r /\
  (forall b, b ≠ a -> issuers s' !! b = issuers s !! b) /\
  certificateDetails s' = certificateDetails s /\
  _nextTokenId s' = _nextTokenId s /\
  _owners s' = _owners s /\ _balances s' = _balances s /\
  _tokenApprovals s' = _tokenApprovals s /\
  _operatorApprovals s' = _operatorApprovals s /\
  _roles_adminRole s' = _roles_adminRole s /\
  (st ≠ Deactivated -> _roles_hasRole s' = _roles_hasRole s) /\
  (st = Deactivated ->
     hasRole ISSUER_ROLE a s' = false /\
     forall role account, (role, account) ≠ (ISSUER_ROLE, a) ->
       hasRole role account s' = hasRole role account s).
Proof.
  intros H r. apply updateIssuerStatus_Done in H. simpl in H.
  destruct H as (_&_&_&_&Hi&Hc&Hn&Ho&Hb&Ht&Hop&Ha&Hr1&Hr2).
  assert (Hrec : issuers_at s' a
                 = mkIssuer (name r) (website r) st (registrationDate r)).
  { unfold issuers_at at 1. by rewrite Hi, lookup_insert_eq. }
  rewrite Hrec. simpl.
  repeat split; try done.
  - intros b Hb'. rewrite Hi. by rewrite lookup_insert_ne.
  - by apply Hr2.
  - by apply Hr2.
Qed.

Lemma C9_status_update_frame_witness :
  status (issuers_at (transact admin_env (UpdateIssuerStatus 2 Suspended)
                        (run history_issued (deploy admin_env))) 2) = Suspended.
Proof.
  refine (proj1 (C9_status_update_frame admin_env 2 Suspended
                   (run history_issued (deploy admin_env)) _ _)).
  vm_compute. reflexivity.
Defined.

(** C6. For a caller holding the Admin role, [addIssuer] fails exactly when
    the identity already has a record (non-zero registration date), and then
    with IssuerAlreadyExists; otherwise it succeeds, the identity holds the
    Issuer role afterwards, its record carries the given name and website,
    status Active and the current timestamp, and the last event logged is
    [IssuerAdded]. *)
Theorem C6_addIssuer env a n w s :
  hasRole ADMIN_ROLE (msg_sender env) s = true ->
  (failure env (AddIssuer a n w) s = Some IssuerAlreadyExists
     <-> _issuerExists a s = true) /\
  (forall e, failure env (AddIssuer a n w) s = Some e -> e = IssuerAlreadyExists) /\
  (_issuerExists a s = false ->
     exists s', exec env (AddIssuer a n w) s = Done tt s' /\
       hasRole ISSUER_ROLE a s' = true /\
       issuers_at s' a = mkIssuer n w Active (block_timestamp env) /\
       last (events s') = Some (IssuerAdded a)).
Proof.
  intros Hadm. unfold failure, exec, addIssuer, onlyRole, _checkRole, _grantRole.
  munfold. rewrite Hadm. simpl.
  destruct (_issuerExists a s) eqn:Hex; simpl.
  - repeat split; try done. by intros e [= <-].
  - destruct (hasRole ISSUER_ROLE a s) eqn:Hr; simpl.
    + repeat split; try done. intros _. eexists. split; [done|].
      unfold issuers_at, hasRole in *; simpl. rewrite lookup_insert_eq.
      by rewrite last_snoc.
    + repeat split; try done. intros _. eexists. split; [done|].
      unfold issuers_at, hasRole in *; simpl. rewrite !lookup_insert_eq.
      by rewrite last_snoc.
Qed.

Lemma C6_addIssuer_witness :
  exists s', exec admin_env (AddIssuer 2 "Uni" "uni.example") (deploy admin_env)
             = Done tt s' /\
    hasRole ISSUER_ROLE 2 s' = true /\
    issuers_at s' 2 = mkIssuer "Uni" "uni.example" Active 100 /\
    last (events s') = Some (IssuerAdded 2).
Proof.
  refine (proj2 (proj2 (C6_addIssuer admin_env 2 "Uni" "uni.example"
                          (deploy admin_env) _)) _);
    vm_compute; reflexivity.
Defined.

(** C4 (as the code has it).  For an Admin caller and an identity with a
    record, asking for the status the record already has is refused with
    StatusUnchanged when that status is Active or Suspended; when it is
    Deactivated the terminal-state check comes first and the refusal is
    IssuerDeactivated. *)
Theorem C4_redundant_transition env a s :
  hasRole ADMIN_ROLE (msg_sender env) s = true ->
  _issuerExists a s = true ->
  (status (issuers_at s a) ≠ Deactivated ->
     failure env (UpdateIssuerStatus a (status (issuers_at s a))) s
       = Some StatusUnchanged) /\
  (status (issuers_at s a) = Deactivated ->
     failure env (UpdateIssuerStatus a (status (issuers_at s a))) s
       = Some IssuerDeactivated).
Proof.
  intros Hadm Hex.
  unfold failure, exec, updateIssuerStatus, onlyRole, _checkRole. munfold.
  simpl. rewrite Hadm. simpl. rewrite Hex. simpl. split; intros Hst.
  - rewrite (bool_decide_eq_false_2 _ Hst). simpl.
    rewrite bool_decide_eq_true_2 by done. done.
  - rewrite (bool_decide_eq_true_2 _ Hst). done.
Qed.

Lemma C4_redundant_transition_witness :
  failure admin_env (UpdateIssuerStatus 2 Active) (run history_issued (deploy admin_env))
    = Some StatusUnchanged.
Proof.
  refine (proj1 (C4_redundant_transition admin_env 2
                   (run history_issued (deploy admin_env)) _ _) _);
    vm_compute; (reflexivity || discriminate).
Defined.

(** The claim as worded fails for a Deactivated issuer. *)
Lemma C4_counterexample :
  ~ (forall env a s,
       hasRole ADMIN_ROLE (msg_sender env) s = true ->
       _issuerExists a s = true ->
       failure env (UpdateIssuerStatus a (status (issuers_at s a))) s
         = Some StatusUnchanged).
Proof.
  intros H.
  specialize (H admin_env 2 (run history_deactivated (deploy admin_env))).
  assert (Hadm : hasRole ADMIN_ROLE (msg_sender admin_env)
                   (run history_deactivated (deploy admin_env)) = true)
    by (vm_compute; reflexivity).
  assert (Hex : _issuerExists 2 (run history_deactivated (deploy admin_env)) = true)
    by (vm_compute; reflexivity).
  specialize (H Hadm Hex). vm_compute in H. discriminate H.
Qed.

(** ** The issuance gate *)

(** What the gate does check: the role, and the status member read from the
    caller's slot of [issuers]. *)
Lemma issueCertificate_gate env to n t s :
  failure env (IssueCertificate to n t) s = None ->
  hasRole ISSUER_ROLE (msg_sender env) s = true /\
  status (issuers_at s (msg_sender env)) = Active.
Proof.
  unfold failure. destruct (exec env (IssueCertificate to n t) s) as [[] s'|] eqn:H;
    [|done].
  intros _. apply issueCertificate_Done in H. simpl in H. by destruct H as (?&?&_).
Qed.

Lemma issueCertificate_not_active env to n t s :
  hasRole ISSUER_ROLE (msg_sender env) s = true ->
  status (issuers_at s (msg_sender env)) ≠ Active ->
  exec env (IssueCertificate to n t) s = Reverted IssuerNotActive s.
Proof.
  intros Hr Hst. unfold exec, issueCertificate, onlyRole, _checkRole. munfold.
  rewrite Hr. simpl. by rewrite (bool_decide_eq_false_2 _ Hst).
Qed.

(** C5 (where the code departs from it).  An account that was handed the
    Issuer role by [grantRole] and was never registered by [addIssuer] has no
    issuer record, yet its issuance goes through: the status read from its
    empty slot is the zero value of the enum, which is Active. *)
Theorem C5_unregistered_role_holder_issues :
  let s := run [(admin_env, GrantRole ISSUER_ROLE 9)] (deploy admin_env) in
  let env := mkEnv 9 200 always_accepts in
  _issuerExists 9 s = false /\
  issuers s !! 9 = None /\
  hasRole ISSUER_ROLE 9 s = true /\
  failure env (IssueCertificate 7 "Bob" "Algorithms 101") s = None /\
  _ownerOf 0 (transact env (IssueCertificate 7 "Bob" "Algorithms 101") s) = 7.
Proof. vm_compute. repeat split; reflexivity. Qed.

(** ** Deactivation *)

Lemma issuers_at_insert s s' a b r :
  issuers s' = <[b := r]> (issuers s) ->
  issuers_at s' a = if decide (b = a) then r else issuers_at s a.
Proof.
  intros H. unfold issuers_at. rewrite H, lookup_insert.
  by case_decide.
Qed.

(** No transaction touches the record of a deactivated issuer. *)
Lemma transact_deactivated_stays env c s a :
  _issuerExists a s = true ->
  status (issuers_at s a) = Deactivated ->
  issuers_at (transact env c s) a = issuers_at s a.
Proof.
  intros Hex Hst.
  destruct (transact_cases env c s) as [[H _]|[-> _]]; [|done].
  destruct c; try (apply exec_issuers_frame in H; [|done|done];
                   unfold issuers_at; by rewrite H).
  - apply addIssuer_Done in H as (_&Hno&Hi&_).
    rewrite (issuers_at_insert _ _ a _ _ Hi).
    case_decide; [|done]. simplify_eq. congruence.
  - apply updateIssuerStatus_Done in H. simpl in H.
    destruct H as (_&_&Hnd&_&Hi&_).
    rewrite (issuers_at_insert _ _ a _ _ Hi).
    case_decide; [|done]. simplify_eq.
Qed.

Lemma run_deactivated_stays tr s a :
  _issuerExists a s = true ->
  status (issuers_at s a) = Deactivated ->
  issuers_at (run tr s) a = issuers_at s a.
Proof.
  revert s. induction tr as [|[env c] tr IH]; intros s Hex Hst; [done|].
  simpl. pose proof (transact_deactivated_stays env c s a Hex Hst) as Hr.
  rewrite IH; [done| |]; unfold _issuerExists in *; by rewrite Hr.
Qed.

Lemma run_issuer_role_stays_off tr s a :
  _issuerExists a s = true ->
  status (issuers_at s a) = Deactivated ->
  hasRole ISSUER_ROLE a s = false ->
  Forall (fun ec : Env * Call => snd ec ≠ GrantRole ISSUER_ROLE a) tr ->
  hasRole ISSUER_ROLE a (run tr s) = false.
Proof.
  revert s. induction tr as [|[env c] tr IH]; intros s Hex Hst Hr Hall; [done|].
  apply Forall_cons in Hall as [Hc Hall]. simpl in *.
  pose proof (transact_deactivated_stays env c s a Hex Hst) as Hrec.
  apply IH; try done; unfold _issuerExists in *; rewrite ?Hrec; try done.
  destruct (transact_cases env c s) as [[H _]|[-> _]]; [|done].
  eapply exec_issuer_role_stays_off; eauto.
Qed.

(** C2 (as the code has it).  After the call that deactivates an issuer the
    identity does not hold the Issuer role, and through every later history
    its status stays Deactivated: [updateIssuerStatus] for it fails with
    IssuerDeactivated for an Admin caller (Unauthorized for any other), and
    its own issuances fail.  The role stays off as long as nobody calls
    [grantRole(ISSUER_ROLE, identity)]. *)
Theorem C2_deactivation_is_terminal env0 a s0 s tr :
  exec env0 (UpdateIssuerStatus a Deactivated) s0 = Done tt s ->
  let s' := run tr s in
  hasRole ISSUER_ROLE a s = false /\
  status (issuers_at s' a) = Deactivated /\
  (forall env st,
     hasRole ADMIN_ROLE (msg_sender env) s' = true ->
     failure env (UpdateIssuerStatus a st) s' = Some IssuerDeactivated) /\
  (forall env st,
     hasRole ADMIN_ROLE (msg_sender env) s' = false ->
     failure env (UpdateIssuerStatus a st) s'
       = Some (Unauthorized (msg_sender env) ADMIN_ROLE)) /\
  (Forall (fun ec : Env * Call => snd ec ≠ GrantRole ISSUER_ROLE a) tr ->
     hasRole ISSUER_ROLE a s' = false) /\
  (forall env to n t,
     msg_sender env = a ->
     failure env (IssueCertificate to n t) s'
       = Some (if hasRole ISSUER_ROLE a s' then IssuerNotActive
               else Unauthorized a ISSUER_ROLE)).
Proof.
  intros H s'. apply updateIssuerStatus_Done in H. simpl in H.
  destruct H as (_&Hex0&_&_&Hi&_&_&_&_&_&_&_&_&Hoff).
  destruct (Hoff eq_refl) as [Hoff' _]. clear Hoff.
  apply (issuers_at_insert _ _ a) in Hi. rewrite decide_True in Hi by done.
  assert (Hst : status (issuers_at s a) = Deactivated) by (by rewrite Hi).
  assert (Hex : _issuerExists a s = true).
  { unfold _issuerExists in *. by rewrite Hi. }
  assert (Hrec : issuers_at s' a = issuers_at s a)
    by (by apply run_deactivated_stays).
  assert (Hex' : _issuerExists a s' = true).
  { unfold _issuerExists in *. by rewrite Hrec. }
  assert (Hst' : status (issuers_at s' a) = Deactivated) by (by rewrite Hrec).
  repeat split; try done.
  - intros env st Hadm.
    unfold failure, exec, updateIssuerStatus, onlyRole, _checkRole. munfold.
    simpl. rewrite Hadm. simpl. rewrite Hex'. simpl. by rewrite Hst'.
  - intros env st Hadm.
    unfold failure, exec, updateIssuerStatus, onlyRole, _checkRole. munfold.
    simpl. by rewrite Hadm.
  - by apply run_issuer_role_stays_off.
  - intros env to n t <-.
    unfold failure, exec, issueCertificate, onlyRole, _checkRole. munfold.
    simpl. destruct (hasRole ISSUER_ROLE (msg_sender env) s'); simpl; [|done].
    by rewrite Hst'.
Qed.

Lemma C2_deactivation_is_terminal_witness :
  failure admin_env (UpdateIssuerStatus 2 Active)
          (run [(admin_env, GrantRole ISSUER_ROLE 2)]
               (run history_deactivated (deploy admin_env)))
    = Some IssuerDeactivated.
Proof.
  refine (proj1 (proj2 (proj2
            (C2_deactivation_is_terminal admin_env 2
               (run history_issued (deploy admin_env))
               (run history_deactivated (deploy admin_env))
               [(admin_env, GrantRole ISSUER_ROLE 2)] _)))
            admin_env Active _);
    vm_compute; reflexivity.
Defined.

(** The claim as worded fails: an Admin can hand the role back with
    [grantRole], whose admin role for ISSUER_ROLE the constructor set to
    ADMIN_ROLE. *)
Lemma C2_counterexample :
  ~ (forall e0 tr1 tr2 a,
       status (issuers_at (run tr1 (deploy e0)) a) = Deactivated ->
       hasRole ISSUER_ROLE a (run (tr1 ++ tr2) (deploy e0)) = false).
Proof.
  intros H.
  specialize (H admin_env history_deactivated
                [(admin_env, GrantRole ISSUER_ROLE 2)] 2).
  assert (Hst : status (issuers_at (run history_deactivated (deploy admin_env)) 2)
                = Deactivated) by (vm_compute; reflexivity).
  specialize (H Hst). vm_compute in H. discriminate H.
Qed.

(** ** Existence *)

(** Whatever is stored was logged: a stored credential has its
    [CertificateIssued] event and a stored issuer its [IssuerAdded] event. *)
Lemma run_stored_was_logged e0 tr :
  let s := run tr (deploy e0) in
  (forall id, is_Some (certificateDetails s !! id) -> id ∈ issued_ids (events s)) /\
  (forall a, is_Some (issuers s !! a) -> IssuerAdded a ∈ events s).
Proof.
  induction tr as [|[env c] tr [IHc IHi]] using rev_ind; simpl.
  - destruct (deploy_storage e0) as (_&->&->&_). unfold run; simpl.
    split; intros ?; rewrite lookup_empty; by intros [? ?].
  - rewrite run_snoc. set (s := run tr (deploy e0)) in *.
    destruct (transact_cases env c s) as [[H _]|[-> _]]; [|done].
    pose proof (exec_events_mono _ _ _ _ H) as [evs Hev].
    split.
    + intros id Hid.
      destruct c;
        try (apply exec_ledger_frame in H as Hl; [|done]; destruct Hl as [Hl _];
             apply exec_issued_ids_frame in H; [|done];
             rewrite H; apply IHc; by rewrite <- Hl).
      apply issueCertificate_Done in H. simpl in H.
      destruct H as (_&_&_&_&_&_&_&Hc&_&_&_&_&He).
      rewrite He, issued_ids_app. simpl. rewrite Hc in Hid.
      apply lookup_insert_is_Some in Hid as [<-|[_ Hid]]; [set_solver|].
      apply IHc in Hid. set_solver.
    + intros a Ha.
      destruct c;
        try (apply exec_issuers_frame in H as Hfr; [|done|done];
             rewrite Hev; apply elem_of_app; left; apply IHi; by rewrite <- Hfr).
      * apply addIssuer_Done in H as (_&_&Hi&_&_&evs'&He).
        rewrite He. rewrite Hi in Ha.
        apply lookup_insert_is_Some in Ha as [<-|[_ Ha]]; [set_solver|].
        apply IHi in Ha. set_solver.
      * apply updateIssuerStatus_Done in H. simpl in H.
        destruct H as (_&Hex&_&_&Hi&_).
        rewrite Hev. apply elem_of_app; left. apply IHi.
        rewrite Hi in Ha.
        apply lookup_insert_is_Some in Ha as [<-|[_ Ha]]; [|done].
        unfold _issuerExists, issuers_at in Hex.
        destruct (issuers s !! _issuerAddress); [done|]. done.
Qed.

Lemma getCertificateDetails_absent id s :
  issueDate (certificateDetails_at s id) = 0 ->
  getCertificateDetails id s = Reverted CredentialNotFound s.
Proof.
  intros H. unfold getCertificateDetails, _certificateExists. munfold. simpl.
  by rewrite bool_decide_eq_true_2.
Qed.

(** C7. In every history played from deployment, [getCertificateDetails]
    fails with CredentialNotFound for an identifier that no issuance was
    logged for (its issue date reads zero), and the getter of [issuers]
    returns the all-zero record, without failing, for an identity that was
    never added. *)
Theorem C7_absent_reads e0 tr id a :
  let s := run tr (deploy e0) in
  id ∉ issued_ids (events s) ->
  IssuerAdded a ∉ events s ->
  issueDate (certificateDetails_at s id) = 0 /\
  getCertificateDetails id s = Reverted CredentialNotFound s /\
  getIssuer a s = Done Issuer_zero s.
Proof.
  intros s Hid Ha. destruct (run_stored_was_logged e0 tr) as [Hc Hi].
  fold s in Hc, Hi.
  assert (Hnone : certificateDetails s !! id = None).
  { destruct (certificateDetails s !! id) eqn:E; [|done].
    exfalso. apply Hid, Hc. by rewrite E. }
  assert (Hzero : issueDate (certificateDetails_at s id) = 0).
  { unfold certificateDetails_at. by rewrite Hnone. }
  split; [done|]. split; [by apply getCertificateDetails_absent|].
  unfold getIssuer, issuers_at. munfold.
  destruct (issuers s !! a) eqn:E; [|done].
  exfalso. apply Ha, Hi. by rewrite E.
Qed.

Lemma C7_absent_reads_witness :
  getCertificateDetails 1 (run history_issued (deploy admin_env))
    = Reverted CredentialNotFound (run history_issued (deploy admin_env))
  /\ getIssuer 7 (run history_issued (deploy admin_env))
    = Done Issuer_zero (run history_issued (deploy admin_env)).
Proof.
  refine (proj2 (C7_absent_reads admin_env history_issued 1 7 _ _));
    vm_compute.
  - intros H. repeat (apply elem_of_cons in H as [H|H]; [discriminate H|]).
    by apply elem_of_nil in H.
  - intros H. repeat (apply elem_of_cons in H as [H|H]; [discriminate H|]).
    by apply elem_of_nil in H.
Defined.

(** ** Ownership and the stored record *)

Lemma minted_by_app tr tr' s0 id rec :
  minted_by tr s0 id rec -> minted_by (tr ++ tr') s0 id rec.
Proof.
  intros (tr1 & env & tr2 & -> & H). exists tr1, env, (tr2 ++ tr').
  split; [|done]. by rewrite <- app_assoc.
Qed.

Lemma run_record_frozen tr s id :
  _ownerOf id s ≠ 0 ->
  certificateDetails (run tr s) !! id = certificateDetails s !! id.
Proof.
  revert s. induction tr as [|[env c] tr IH]; intros s Hown; [done|].
  simpl. rewrite IH by (by rewrite transact_owner_frozen).
  destruct (transact_cases env c s) as [[H _]|[-> _]]; [|done].
  by eapply exec_record_frozen.
Qed.

(** The correspondence between the token and its record, along every
    history. *)
Lemma run_owner_matches_record e0 tr id rec :
  certificateDetails (run tr (deploy e0)) !! id = Some rec ->
  _ownerOf id (run tr (deploy e0)) = recipientAddress rec /\
  recipientAddress rec ≠ 0 /\
  minted_by tr (deploy e0) id rec.
Proof.
  revert id rec. induction tr as [|[env c] tr IH] using rev_ind; intros id rec.
  - destruct (deploy_storage e0) as (_&Hc&_). unfold run; simpl.
    by rewrite Hc, lookup_empty.
  - rewrite run_snoc. set (s := run tr (deploy e0)) in *.
    assert (Hold : certificateDetails s !! id = Some rec ->
              _ownerOf id (transact env c s) = recipientAddress rec /\
              recipientAddress rec ≠ 0 /\
              minted_by (tr ++ [(env, c)]) (deploy e0) id rec).
    { intros Hrec. destruct (IH _ _ Hrec) as (Hown & Hne & Hm).
      rewrite transact_owner_frozen by congruence.
      split; [done|]. split; [done|]. by apply minted_by_app. }
    destruct (transact_cases env c s) as [[H Hf]|[Hs _]];
      [|rewrite Hs in *; exact Hold].
    destruct c;
      try (apply exec_ledger_frame in H as [-> _]; [exact Hold|done]).
    apply issueCertificate_Done in H as Hd. simpl in Hd.
    destruct Hd as (_&_&_&Hto&_&_&_&Hc&Hown&_).
    intros Hrec. rewrite Hc in Hrec.
    apply lookup_insert_Some in Hrec as [[<- <-]|[_ Hrec]]; [|by apply Hold].
    simpl. split; [done|]. split; [done|].
    exists tr, env, []. simpl. by fold s.
Qed.

(** C10. Along every history played from deployment, a credential that
    exists (non-zero issue date) has a token whose owner is the recipient
    stored in the record, and the stored issuer is the sender of the
    successful [issueCertificate] that allocated the identifier; whatever
    transactions follow, the record and the owner stay as they are. *)
Theorem C10_owner_matches_record e0 tr id :
  let s := run tr (deploy e0) in
  let rec := certificateDetails_at s id in
  _certificateExists id s = true ->
  _ownerOf id s = recipientAddress rec /\
  minted_by tr (deploy e0) id rec /\
  (forall tr',
     certificateDetails_at (run tr' s) id = rec /\
     _ownerOf id (run tr' s) = recipientAddress rec).
Proof.
  intros s rec Hex.
  assert (Hrec : certificateDetails s !! id = Some rec).
  { unfold _certificateExists in Hex. unfold rec, certificateDetails_at in *.
    destruct (certificateDetails s !! id); [done|]. done. }
  destruct (run_owner_matches_record e0 tr id rec Hrec) as (Hown & Hne & Hm).
  fold s in Hown. split; [done|]. split; [done|].
  intros tr'. assert (Ho : _ownerOf id s ≠ 0) by congruence. split.
  - unfold certificateDetails_at at 1. rewrite run_record_frozen by done.
    by rewrite Hrec.
  - by rewrite run_owner_frozen.
Qed.

Lemma C10_owner_matches_record_witness :
  _ownerOf 0 (run history_deactivated (deploy admin_env)) = 7.
Proof.
  refine (proj1 (C10_owner_matches_record admin_env history_deactivated 0 _)).
  vm_compute. reflexivity.
Defined.

(** ** Transfers never go through *)

(** Approvals are written for owned tokens only, and operator approvals under
    the sender's own address. *)
Lemma exec_approvals_frame env c s s' :
  exec env c s = Done tt s' ->
  (forall id, _ownerOf id s = 0 -> _getApproved id s' = _getApproved id s) /\
  (forall o x, o ≠ msg_sender env ->
     isApprovedForAll o x s' = isApprovedForAll o x s).
Proof.
  intros H. destruct c; revert H; frame_solve.
  all: unfold _getApproved, isApprovedForAll; simpl; split; try done.
  all: intros; rewrite lookup_insert_ne; [done|intros ?; simplify_eq].
Qed.

Lemma run_no_stray_approvals e0 tr :
  senders_nonzero tr ->
  let s := run tr (deploy e0) in
  (forall id, _ownerOf id s = 0 -> _getApproved id s = 0) /\
  (forall x, isApprovedForAll 0 x s = false).
Proof.
  induction tr as [|[env c] tr IH] using rev_ind; intros Hnz; simpl.
  - unfold deploy, constructor. sol_unfold. unfold empty_storage. paths.
    all: unfold _getApproved, isApprovedForAll; simpl; by rewrite ?lookup_empty.
  - apply Forall_app in Hnz as [Hnz Henv]. rewrite Forall_singleton in Henv.
    destruct (IH Hnz) as [IHa IHo]. rewrite run_snoc.
    set (s := run tr (deploy e0)) in *.
    destruct (transact_cases env c s) as [[H _]|[-> _]]; [|done].
    destruct (exec_approvals_frame _ _ _ _ H) as [Ha Ho]. split.
    + intros id Hid.
      destruct (decide (_ownerOf id s = 0)) as [Hz|Hz].
      * rewrite Ha by done. by apply IHa.
      * rewrite (exec_owner_frozen _ _ _ _ _ Hz H) in Hid. done.
    + intros x. rewrite Ho; [apply IHo|].
      simpl in Henv. intros E. by rewrite <- E in Henv.
Qed.

(** Along a history whose senders are real accounts, no transfer entry point
    ever succeeds: every change of owner is a mint made by
    [issueCertificate]. *)
Lemma transfer_never_succeeds e0 tr env from to id :
  senders_nonzero tr -> msg_sender env ≠ 0 ->
  let s := run tr (deploy e0) in
  failure env (TransferFrom from to id) s ≠ None /\
  failure env (SafeTransferFrom from to id) s ≠ None.
Proof.
  intros Hnz Henv s.
  destruct (run_no_stray_approvals e0 tr Hnz) as [Ha Ho]. fold s in Ha, Ho.
  assert (Hno : forall s', transferFrom env from to id s = Done tt s' -> False).
  { intros s' H. revert H. sol_unfold. intros H. paths; bools; simplify_eq.
    all: unfold _isAuthorized in *.
    assert (Hs : bool_decide (0 = msg_sender env) = false).
    { apply bool_decide_eq_false_2. intros Heq. by symmetry in Heq. }
    match goal with
    | Hz : _ownerOf id _ = 0, Hauth : _ && _ = true |- _ =>
        rewrite Hz, (Ha id Hz), Ho, !Hs in Hauth;
        by rewrite andb_false_r in Hauth
    end. }
  unfold failure, exec, safeTransferFrom. munfold.
  destruct (transferFrom env from to id s) as [[] s'|e p] eqn:H.
  - by destruct (Hno s').
  - done.
Qed.

(** ** Where the registry's own calls revert *)

(** The role and approval calls and [addIssuer] revert before they write
    anything; so does [updateIssuerStatus] wherever the admin role of the
    Issuer role is the Admin role, as it is from deployment on. *)
Lemma checks_precede_writes env c s e p :
  (forall to n t, c ≠ IssueCertificate to n t) ->
  (forall f to id, c ≠ TransferFrom f to id) ->
  (forall f to id, c ≠ SafeTransferFrom f to id) ->
  getRoleAdmin ISSUER_ROLE s = ADMIN_ROLE ->
  exec env c s = Reverted e p -> p = s.
Proof.
  intros Hi Ht Hs Hadm H.
  destruct c; try (by exfalso; eapply Hi); try (by exfalso; eapply Ht);
    try (by exfalso; eapply Hs); clear Hi Ht Hs; revert H.
  all: sol_unfold; intros H; paths; simplify_eq; try done.
  all: unfold getRoleAdmin, hasRole, set_issuer_status, set_issuers in *;
       simpl in *; congruence.
Qed.

Lemma run_adminRole_fixed e0 tr :
  getRoleAdmin ISSUER_ROLE (run tr (deploy e0)) = ADMIN_ROLE.
Proof.
  induction tr as [|[env c] tr IH] using rev_ind.
  - by destruct (deploy_storage e0) as (_&_&_&_&_&?&_).
  - rewrite run_snoc.
    destruct (transact_cases env c (run tr (deploy e0))) as [[H _]|[-> _]];
      [|done].
    apply exec_adminRole_frame in H. unfold getRoleAdmin in *. by rewrite H.
Qed.

(** ** The walk-through of the specification *)

Example walkthrough :
  let s1 := run history_issued (deploy admin_env) in
  let s2 := transact admin_env (UpdateIssuerStatus 2 Suspended) s1 in
  let s3 := transact admin_env (UpdateIssuerStatus 2 Deactivated) s2 in
  issued_ids (events s1) = [0] /\
  failure issuer_env (IssueCertificate 7 "Bob" "Data Structures") s2
    = Some IssuerNotActive /\
  failure issuer_env (IssueCertificate 7 "Bob" "Data Structures") s3
    = Some (Unauthorized 2 ISSUER_ROLE) /\
  failure admin_env (UpdateIssuerStatus 2 Active) s3 = Some IssuerDeactivated.
Proof. vm_compute. repeat split; reflexivity. Qed.

Example two_issuers_get_0_and_1 :
  let other_env := mkEnv 3 250 always_accepts in
  let s := run [(admin_env, AddIssuer 2 "Uni" "uni.example");
                (admin_env, AddIssuer 3 "Poly" "poly.example");
                (other_env, IssueCertificate 8 "Eve" "Logic");
                (issuer_env, IssueCertificate 7 "Bob" "Algorithms 101")]
               (deploy admin_env) in
  issued_ids (events s) = [0; 1] /\
  issuerAddress (certificateDetails_at s 0) = 3 /\
  issuerAddress (certificateDetails_at s 1) = 2.
Proof. vm_compute. repeat split; reflexivity. Qed.

(** * Further properties *)

(** ** The token ledger is dense below the counter *)

Lemma issueCertificate_Done_tokens env to n t s s' :
  issueCertificate env to n t s = Done tt s' ->
  _owners s' = <[_nextTokenId s := to]> (_owners s) /\
  _balances s' = <[to := (balance_at s to + 1) `mod` 2 ^ 256]> (_balances s) /\
  _tokenApprovals s' = _tokenApprovals s /\
  _operatorApprovals s' = _operatorApprovals s.
Proof. frame_solve. Qed.

Lemma exec_tokens_frame env c s s' :
  (forall to n t, c ≠ IssueCertificate to n t) ->
  (forall f to id, c ≠ TransferFrom f to id) ->
  (forall f to id, c ≠ SafeTransferFrom f to id) ->
  exec env c s = Done tt s' ->
  _owners s' = _owners s /\ _balances s' = _balances s.
Proof.
  intros Hi Ht Hs H.
  destruct c; try (by exfalso; eapply Hi); try (by exfalso; eapply Ht);
    try (by exfalso; eapply Hs); clear Hi Ht Hs; revert H; frame_solve.
Qed.

Lemma issued_to_app a evs1 evs2 :
  issued_to a (evs1 ++ evs2) = (issued_to a evs1 + issued_to a evs2)%nat.
Proof.
  induction evs1 as [|ev evs1 IH]; [done|].
  destruct ev; simpl; rewrite ?IH; lia.
Qed.

Lemma issued_to_le_ids a evs : (issued_to a evs <= length (issued_ids evs))%nat.
Proof.
  induction evs as [|ev evs IH]; [done|].
  destruct ev; simpl; try done. case_bool_decide; lia.
Qed.

Lemma exec_issued_to_frame env c s s' a :
  (forall to n t, c ≠ IssueCertificate to n t) ->
  exec env c s = Done tt s' ->
  issued_to a (events s') = issued_to a (events s).
Proof.
  intros Hc H. destruct c; try (by exfalso; eapply Hc); clear Hc; revert H;
    frame_solve; rewrite ?issued_to_app; simpl; lia.
Qed.

Lemma senders_nonzero_snoc tr env c :
  senders_nonzero (tr ++ [(env, c)]) <-> senders_nonzero tr /\ msg_sender env ≠ 0.
Proof.
  unfold senders_nonzero. rewrite Forall_app, Forall_singleton. done.
Qed.

Lemma ledger_dense_frame s s' :
  _owners s' = _owners s -> _balances s' = _balances s ->
  certificateDetails s' = certificateDetails s ->
  _nextTokenId s' = _nextTokenId s ->
  (forall a, issued_to a (events s') = issued_to a (events s)) ->
  ledger_dense s -> ledger_dense s'.
Proof.
  intros Ho Hb Hc Hn He (H1 & H2 & H3 & H4).
  unfold ledger_dense, _ownerOf, balance_at in *.
  rewrite Ho, Hb, Hc, Hn.
  split; [done|]. split; [done|]. split; [done|].
  intros a. rewrite He. apply H4.
Qed.

Lemma deploy_ledger_dense e0 : ledger_dense (deploy e0).
Proof.
  unfold deploy, constructor. sol_unfold.
  unfold empty_storage, ledger_dense, MAX_UINT256. paths.
  all: unfold _ownerOf, balance_at; simpl.
  all: split; [lia|]; split; [|split]; intros x; rewrite ?lookup_empty; simpl;
    try done.
  all: split; try lia; try done; by intros [? ?].
Qed.

(** Along a history sent from real accounts the ledger stays dense. *)
Lemma run_ledger_dense e0 tr :
  senders_nonzero tr -> ledger_dense (run tr (deploy e0)).
Proof.
  induction tr as [|[env c] tr IH] using rev_ind; intros Hnz.
  - apply deploy_ledger_dense.
  - apply senders_nonzero_snoc in Hnz as [Hnz Henv].
    specialize (IH Hnz).
    pose proof (run_counter tr (deploy e0)) as [Hcnt Hids].
    destruct (deploy_storage e0) as (Hd0&_&_&_&Hde&_).
    rewrite Hd0 in Hcnt, Hids. rewrite Hde in Hids. simpl in Hids.
    pose proof (transfer_never_succeeds e0 tr env) as Hnt.
    rewrite run_snoc. set (s := run tr (deploy e0)) in *.
    destruct (transact_cases env c s) as [[H _]|[-> _]]; [|done].
    destruct c as [a0 n0 w0|a0 st0|to0 n0 t0|r0 a0|r0 a0|r0 a0|to0 id0|op0 b0
                  |f0 to0 id0|f0 to0 id0].
    3: { destruct IH as (Hn & Ho & Hc & Hb).
         apply issueCertificate_Done in H as Hd. simpl in Hd.
         destruct Hd as (_&_&Hmax&Hto&_&_&Hn'&Hc'&_&_&_&_&Hev).
         apply issueCertificate_Done_tokens in H as (Ho'&Hb'&_).
         unfold ledger_dense. rewrite Hn'. split; [lia|]. split; [|split].
         - intros id. unfold _ownerOf. rewrite Ho', lookup_insert.
           case_decide; simplify_eq; simpl.
           + split; [lia|done].
           + fold (_ownerOf id s). rewrite Ho. lia.
         - intros id. rewrite Hc', lookup_insert_is_Some, Hc. split.
           + intros [<-|[_ ?]]; lia.
           + intros Hr. destruct (decide (_nextTokenId s = id)); [by left|].
             right. split; [done|lia].
         - intros a. unfold balance_at. rewrite Hb', Hev, issued_to_app.
           rewrite lookup_insert. simpl.
           case_decide; case_bool_decide; simplify_eq; simpl.
           + fold (balance_at s a). rewrite Hb.
             pose proof (issued_to_le_ids a (events s)) as Hle.
             rewrite Hids, length_fmap, length_seq in Hle.
             rewrite Z.mod_small; [lia|]. unfold MAX_UINT256 in *. lia.
           + fold (balance_at s a). rewrite Hb. lia. }
    all: try (apply exec_tokens_frame in H as Hfr; [|done|done|done];
              destruct Hfr as [Ho' Hb'];
              apply exec_ledger_frame in H as Hl; [|done];
              destruct Hl as [Hc' Hn'];
              apply (ledger_dense_frame s); try done;
              intros a; eapply exec_issued_to_frame; [|exact H]; done).
    + exfalso. destruct (Hnt f0 to0 id0 Hnz Henv) as [Hf _].
      fold s in Hf. unfold failure in Hf. by rewrite H in Hf.
    + exfalso. destruct (Hnt f0 to0 id0 Hnz Henv) as [_ Hf].
      fold s in Hf. unfold failure in Hf. by rewrite H in Hf.
Qed.

(** X5. Along a history sent from real accounts, a token has an owner exactly
    when its identifier is below the counter, a record is stored for exactly
    the same identifiers, and [ownerOf] returns the recipient stored in the
    record for those and fails with ERC721NonexistentToken for all others. *)
Theorem tokens_exist_below_counter e0 tr id :
  senders_nonzero tr ->
  let s := run tr (deploy e0) in
  (_ownerOf id s ≠ 0 <-> 0 <= id < _nextTokenId s) /\
  (is_Some (certificateDetails s !! id) <-> 0 <= id < _nextTokenId s) /\
  ownerOf id s = if decide (0 <= id < _nextTokenId s)
                 then Done (recipientAddress (certificateDetails_at s id)) s
                 else Reverted (ERC721NonexistentToken id) s.
Proof.
  intros Hnz s. destruct (run_ledger_dense e0 tr Hnz) as (_ & Ho & Hc & _).
  fold s in Ho, Hc. split; [apply Ho|]. split; [apply Hc|].
  unfold ownerOf, _requireOwned. munfold. simpl.
  case_decide as Hr.
  - apply Hc in Hr as Hrec. destruct Hrec as [rec Hrec].
    destruct (run_owner_matches_record e0 tr id rec Hrec) as (Hown & Hne & _).
    fold s in Hown. unfold certificateDetails_at. rewrite Hrec. simpl.
    rewrite Hown. by rewrite bool_decide_eq_false_2.
  - assert (Hz : _ownerOf id s = 0).
    { destruct (decide (_ownerOf id s = 0)); [done|]. by apply Ho in n. }
    rewrite Hz. done.
Qed.

Lemma tokens_exist_below_counter_witness :
  let s := run history_deactivated (deploy admin_env) in
  _ownerOf 0 s ≠ 0 <-> 0 <= 0 < _nextTokenId s.
Proof.
  refine (proj1 (tokens_exist_below_counter admin_env history_deactivated 0 _)).
  unfold senders_nonzero, history_deactivated, history_issued, history_added;
    simpl; repeat constructor; simpl; discriminate.
Defined.

(** X6. Along a history sent from real accounts, [balanceOf] of a non-zero
    account returns the number of certificates issued to it (the number of
    [CertificateIssued] events naming it as recipient); the unchecked
    increment never wraps. *)
Theorem balance_counts_certificates e0 tr a :
  senders_nonzero tr -> a ≠ 0 ->
  balanceOf a (run tr (deploy e0))
    = Done (Z.of_nat (issued_to a (events (run tr (deploy e0)))))
           (run tr (deploy e0)).
Proof.
  intros Hnz Ha. destruct (run_ledger_dense e0 tr Hnz) as (_ & _ & _ & Hb).
  unfold balanceOf. munfold. rewrite (bool_decide_eq_false_2 _ Ha). simpl.
  by rewrite Hb.
Qed.

Lemma balance_counts_certificates_witness :
  balanceOf 7 (run history_deactivated (deploy admin_env))
    = Done (Z.of_nat (issued_to 7 (events (run history_deactivated (deploy admin_env)))))
           (run history_deactivated (deploy admin_env)).
Proof.
  refine (balance_counts_certificates admin_env history_deactivated 7 _ _).
  - unfold senders_nonzero, history_deactivated, history_issued, history_added;
    simpl; repeat constructor; simpl; discriminate.
  - discriminate.
Defined.

(** ** Why a transfer fails *)

Lemma transferFrom_unminted env from to id s :
  _ownerOf id s = 0 -> _getApproved id s = 0 ->
  isApprovedForAll 0 (msg_sender env) s = false ->
  to ≠ 0 -> msg_sender env ≠ 0 ->
  transferFrom env from to id s = Reverted (ERC721NonexistentToken id) s.
Proof.
  intros Hz Ha Ho Hto Henv.
  assert (Hs : bool_decide (0 = msg_sender env) = false).
  { apply bool_decide_eq_false_2. intros Heq. by symmetry in Heq. }
  unfold transferFrom, _update, ERC721_update, _checkAuthorized, _isAuthorized.
  munfold. unfold _ownerOf, _getApproved, isApprovedForAll in *.
  rewrite (bool_decide_eq_false_2 _ Hto). simpl.
  rewrite Hz. simpl. rewrite (bool_decide_eq_false_2 _ Henv). simpl.
  rewrite !Hz, Ha, Ho, Hs. simpl. done.
Qed.

(** X7. Along a history sent from real accounts, [transferFrom] and
    [safeTransferFrom] fail for every caller, sender, recipient and
    identifier, whatever approvals were given: with ERC721InvalidReceiver
    when the recipient is [address(0)], else with TransferForbidden when the
    token was minted, else with ERC721NonexistentToken. *)
Theorem transfer_failure_reason e0 tr env from to id :
  senders_nonzero tr -> msg_sender env ≠ 0 ->
  let s := run tr (deploy e0) in
  let reason :=
    if decide (to = 0) then ERC721InvalidReceiver 0
    else if decide (0 <= id < _nextTokenId s) then TransferForbidden
    else ERC721NonexistentToken id in
  failure env (TransferFrom from to id) s = Some reason /\
  failure env (SafeTransferFrom from to id) s = Some reason.
Proof.
  intros Hnz Henv s reason. unfold reason.
  destruct (run_ledger_dense e0 tr Hnz) as (_ & Ho & _ & _). fold s in Ho.
  destruct (run_no_stray_approvals e0 tr Hnz) as [Ha Hop]. fold s in Ha, Hop.
  case_decide as Hto; [subst; apply transfer_to_zero_refused|].
  case_decide as Hr.
  - apply transfer_owned_refused; [by apply Ho|done].
  - assert (Hz : _ownerOf id s = 0).
    { destruct (decide (_ownerOf id s = 0)); [done|]. by apply Ho in n. }
    pose proof (transferFrom_unminted env from to id s Hz (Ha id Hz)
                  (Hop _) Hto Henv) as Ht.
    unfold failure, exec, safeTransferFrom. munfold. by rewrite Ht.
Qed.

Lemma transfer_failure_reason_witness :
  let s := run history_issued (deploy admin_env) in
  failure holder_env (TransferFrom 7 8 0) s
    = Some (if decide (8 = 0) then ERC721InvalidReceiver 0
            else if decide (0 <= 0 < _nextTokenId s) then TransferForbidden
            else ERC721NonexistentToken 0).
Proof.
  refine (proj1 (transfer_failure_reason admin_env history_issued holder_env
                   7 8 0 _ _)).
  - unfold senders_nonzero, history_deactivated, history_issued, history_added;
    simpl; repeat constructor; simpl; discriminate.
  - simpl; discriminate.
Defined.

(** ** Outcome tables *)

(** The admin role of ISSUER_ROLE is ADMIN_ROLE and that of every other role
    is DEFAULT_ADMIN_ROLE, from deployment on. *)
Lemma run_getRoleAdmin e0 tr role :
  getRoleAdmin role (run tr (deploy e0))
    = if bool_decide (role = ISSUER_ROLE) then ADMIN_ROLE else DEFAULT_ADMIN_ROLE.
Proof.
  induction tr as [|[env c] tr IH] using rev_ind.
  - unfold run; simpl. unfold deploy, constructor. sol_unfold.
    unfold empty_storage, getRoleAdmin. paths.
    all: bools; subst.
    all: rewrite ?lookup_insert_eq; try reflexivity.
    all: rewrite lookup_insert_ne, lookup_empty; [reflexivity|].
    all: intros Heq; by symmetry in Heq.
  - rewrite run_snoc.
    destruct (transact_cases env c (run tr (deploy e0))) as [[H _]|[-> _]];
      [|done].
    apply exec_adminRole_frame in H. unfold getRoleAdmin in *. by rewrite H.
Qed.

(** X1. In every history played from deployment the outcome of
    [updateIssuerStatus] is decided by four tests, in this order: the
    caller's Admin role (Unauthorized), the existence of the record
    (IssuerNotFound), the record being Deactivated (IssuerDeactivated), the
    new status being the current one (StatusUnchanged).  So the only
    transitions ever made are Active to Suspended, Suspended to Active, and
    either of them to Deactivated. *)
Theorem updateIssuerStatus_outcome e0 tr env a st :
  let s := run tr (deploy e0) in
  let old := status (issuers_at s a) in
  failure env (UpdateIssuerStatus a st) s =
    (if negb (hasRole ADMIN_ROLE (msg_sender env) s)
     then Some (Unauthorized (msg_sender env) ADMIN_ROLE)
     else if negb (_issuerExists a s) then Some IssuerNotFound
     else if bool_decide (old = Deactivated) then Some IssuerDeactivated
     else if bool_decide (old = st) then Some StatusUnchanged
     else None) /\
  (failure env (UpdateIssuerStatus a st) s = None ->
     (old, st) ∈ [(Active, Suspended); (Suspended, Active);
                  (Active, Deactivated); (Suspended, Deactivated)]).
Proof.
  intros s old.
  pose proof (run_getRoleAdmin e0 tr ISSUER_ROLE) as Hadm. fold s in Hadm.
  rewrite bool_decide_eq_true_2 in Hadm by done.
  assert (Htab : failure env (UpdateIssuerStatus a st) s =
    (if negb (hasRole ADMIN_ROLE (msg_sender env) s)
     then Some (Unauthorized (msg_sender env) ADMIN_ROLE)
     else if negb (_issuerExists a s) then Some IssuerNotFound
     else if bool_decide (old = Deactivated) then Some IssuerDeactivated
     else if bool_decide (old = st) then Some StatusUnchanged
     else None)).
  { unfold failure. sol_unfold. simpl. unfold old.
    destruct (hasRole ADMIN_ROLE (msg_sender env) s) eqn:Hr; simpl; [|done].
    destruct (_issuerExists a s); simpl; [|done].
    destruct (bool_decide (status (issuers_at s a) = Deactivated)); simpl;
      [done|].
    destruct (bool_decide (status (issuers_at s a) = st)); simpl; [done|].
    destruct (bool_decide (st = Deactivated)); simpl; [|done].
    unfold getRoleAdmin, hasRole, set_issuer_status in *. simpl.
    rewrite Hadm. rewrite Hr. simpl.
    destruct (default false (_roles_hasRole s !! (ISSUER_ROLE, a))); done. }
  split; [done|]. rewrite Htab. clear Htab.
  destruct (negb (hasRole ADMIN_ROLE (msg_sender env) s)); [done|].
  destruct (negb (_issuerExists a s)); [done|].
  case_bool_decide as H1; [done|]. case_bool_decide as H2; [done|].
  intros _. destruct old, st; try done; set_solver.
Qed.

(** ** The role hierarchy set up by the constructor *)

(** X8. In every history played from deployment the admin role of
    ISSUER_ROLE is ADMIN_ROLE and the admin role of every other role is
    DEFAULT_ADMIN_ROLE; [grantRole] and [revokeRole] succeed exactly for
    callers holding that admin role, fail with Unauthorized naming it
    otherwise, and when they succeed the account holds, respectively does not
    hold, the role afterwards. *)
Theorem role_hierarchy e0 tr env role account :
  let s := run tr (deploy e0) in
  let adminRole :=
    if bool_decide (role = ISSUER_ROLE) then ADMIN_ROLE else DEFAULT_ADMIN_ROLE in
  let refusal :=
    if hasRole adminRole (msg_sender env) s then None
    else Some (Unauthorized (msg_sender env) adminRole) in
  getRoleAdmin role s = adminRole /\
  failure env (GrantRole role account) s = refusal /\
  failure env (RevokeRole role account) s = refusal /\
  (hasRole adminRole (msg_sender env) s = true ->
     hasRole role account (transact env (GrantRole role account) s) = true /\
     hasRole role account (transact env (RevokeRole role account) s) = false).
Proof.
  intros s adminRole refusal.
  pose proof (run_getRoleAdmin e0 tr role) as Hadm. fold s adminRole in Hadm.
  unfold refusal, failure, transact. sol_unfold. simpl. rewrite Hadm.
  split; [done|].
  destruct (hasRole adminRole (msg_sender env) s) eqn:Hr; simpl.
  - destruct (hasRole role account s) eqn:Hh; simpl;
      unfold hasRole in *; simpl; rewrite ?lookup_insert_eq; done.
  - repeat split; done.
Qed.

Lemma deploy_hasRole env role account :
  hasRole role account (deploy env)
    = bool_decide (account = msg_sender env)
      && (bool_decide (role = DEFAULT_ADMIN_ROLE) || bool_decide (role = ADMIN_ROLE)).
Proof.
  unfold deploy, constructor. sol_unfold.
  unfold empty_storage, hasRole. simpl. rewrite lookup_empty. simpl.
  rewrite lookup_insert_ne by done. rewrite lookup_empty. simpl.
  rewrite !lookup_insert, lookup_empty.
  repeat case_decide; repeat case_bool_decide; simplify_eq; try done.
Qed.

Lemma deploy_events env :
  events (deploy env)
    = [RoleGranted DEFAULT_ADMIN_ROLE (msg_sender env) (msg_sender env);
       RoleGranted ADMIN_ROLE (msg_sender env) (msg_sender env);
       RoleAdminChanged ISSUER_ROLE DEFAULT_ADMIN_ROLE ADMIN_ROLE].
Proof.
  unfold deploy, constructor. sol_unfold.
  unfold empty_storage, hasRole, getRoleAdmin. simpl. rewrite lookup_empty. simpl.
  rewrite lookup_insert_ne by done. rewrite lookup_empty. simpl.
  by rewrite lookup_empty.
Qed.

(** X9. Right after deployment the deployer, and nobody else, holds
    DEFAULT_ADMIN_ROLE and ADMIN_ROLE, no account holds any other role, in
    particular nobody is an issuer, and there is no issuer record, no
    certificate and no token. *)
Theorem deploy_roles env role account :
  let s := deploy env in
  hasRole role account s
    = bool_decide (account = msg_sender env)
      && (bool_decide (role = DEFAULT_ADMIN_ROLE) || bool_decide (role = ADMIN_ROLE)) /\
  issuers s = ∅ /\ certificateDetails s = ∅ /\ _owners s = ∅ /\ _nextTokenId s = 0.
Proof.
  intros s. destruct (deploy_storage env) as (Hn & Hc & Hi & Ho & _).
  split; [apply deploy_hasRole|done].
Qed.

(** ** Issuer records *)

Lemma transact_issuer_identity env c s a :
  _issuerExists a s = true ->
  let r := issuers_at s a in
  let r' := issuers_at (transact env c s) a in
  name r' = name r /\ website r' = website r /\
  registrationDate r' = registrationDate r.
Proof.
  intros Hex r r'. unfold r, r'.
  destruct (transact_cases env c s) as [[H _]|[-> _]]; [|done].
  destruct c; try (apply exec_issuers_frame in H; [|done|done];
                   unfold issuers_at; by rewrite H).
  - apply addIssuer_Done in H as (_&Hno&Hi&_).
    rewrite (issuers_at_insert _ _ a _ _ Hi).
    case_decide; [|done]. simplify_eq. congruence.
  - apply updateIssuerStatus_Done in H. simpl in H.
    destruct H as (_&_&_&_&Hi&_).
    rewrite (issuers_at_insert _ _ a _ _ Hi).
    case_decide; [|done]. by simplify_eq.
Qed.

(** X2. Once an identity has an issuer record (non-zero registration date),
    no history changes the name, the website or the registration date of the
    record, the record keeps existing, and every [addIssuer] for the identity
    fails: with IssuerAlreadyExists for an Admin caller and Unauthorized for
    anybody else. *)
Theorem issuer_record_is_permanent a s tr :
  _issuerExists a s = true ->
  let s' := run tr s in
  _issuerExists a s' = true /\
  name (issuers_at s' a) = name (issuers_at s a) /\
  website (issuers_at s' a) = website (issuers_at s a) /\
  registrationDate (issuers_at s' a) = registrationDate (issuers_at s a) /\
  (forall env n w,
     failure env (AddIssuer a n w) s'
       = Some (if hasRole ADMIN_ROLE (msg_sender env) s' then IssuerAlreadyExists
               else Unauthorized (msg_sender env) ADMIN_ROLE)).
Proof.
  intros Hex s'.
  assert (Hid : name (issuers_at s' a) = name (issuers_at s a) /\
                website (issuers_at s' a) = website (issuers_at s a) /\
                registrationDate (issuers_at s' a) = registrationDate (issuers_at s a)).
  { unfold s'. clear s'. revert s Hex.
    induction tr as [|[env c] tr IH]; intros s Hex; [done|]. simpl.
    destruct (transact_issuer_identity env c s a Hex) as (H1 & H2 & H3).
    assert (Hex' : _issuerExists a (transact env c s) = true).
    { unfold _issuerExists in *. by rewrite H3. }
    destruct (IH _ Hex') as (I1 & I2 & I3).
    rewrite I1, I2, I3. done. }
  destruct Hid as (H1 & H2 & H3).
  assert (Hex' : _issuerExists a s' = true).
  { unfold _issuerExists in *. by rewrite H3. }
  repeat split; try done.
  intros env n w. unfold failure. sol_unfold. simpl.
  destruct (hasRole ADMIN_ROLE (msg_sender env) s'); simpl; [|done].
  by rewrite Hex'.
Qed.

Lemma issuer_record_is_permanent_witness :
  let s := run history_added (deploy admin_env) in
  name (issuers_at (run [(admin_env, UpdateIssuerStatus 2 Suspended);
                         (admin_env, AddIssuer 2 "Other" "other.example")] s) 2)
    = name (issuers_at s 2).
Proof.
  refine (proj1 (proj2 (issuer_record_is_permanent 2
            (run history_added (deploy admin_env))
            [(admin_env, UpdateIssuerStatus 2 Suspended);
             (admin_env, AddIssuer 2 "Other" "other.example")] _))).
  vm_compute. reflexivity.
Defined.

Lemma issuers_lookup_exists a s :
  _issuerExists a s = true -> issuers s !! a = Some (issuers_at s a).
Proof.
  unfold _issuerExists, issuers_at. destruct (issuers s !! a); [done|].
  simpl. done.
Qed.

(** X3. Suspending an Active issuer and re-activating it restores the
    storage exactly: every table, the role memberships and the counter are
    what they were, and only the log has grown, by the two
    [IssuerStatusUpdated] events.  In between the issuer's issuances are
    refused. *)
Theorem suspend_reactivate_roundtrip env1 env2 a s :
  hasRole ADMIN_ROLE (msg_sender env1) s = true ->
  hasRole ADMIN_ROLE (msg_sender env2) s = true ->
  _issuerExists a s = true ->
  status (issuers_at s a) = Active ->
  let s1 := transact env1 (UpdateIssuerStatus a Suspended) s in
  let s2 := transact env2 (UpdateIssuerStatus a Active) s1 in
  failure env1 (UpdateIssuerStatus a Suspended) s = None /\
  failure env2 (UpdateIssuerStatus a Active) s1 = None /\
  (forall env to n t, msg_sender env = a ->
     failure env (IssueCertificate to n t) s1 ≠ None) /\
  s2 = mkState (_roles_hasRole s) (_roles_adminRole s) (_owners s) (_balances s)
               (_tokenApprovals s) (_operatorApprovals s) (issuers s)
               (certificateDetails s) (_nextTokenId s)
               (events s ++ [IssuerStatusUpdated a Active Suspended;
                             IssuerStatusUpdated a Suspended Active]).
Proof.
  intros Ha1 Ha2 Hex Hst s1 s2.
  pose proof (issuers_lookup_exists a s Hex) as Hlk.
  assert (E1 : exec env1 (UpdateIssuerStatus a Suspended) s =
    Done tt (mkState (_roles_hasRole s) (_roles_adminRole s) (_owners s)
               (_balances s) (_tokenApprovals s) (_operatorApprovals s)
               (<[a := mkIssuer (name (issuers_at s a)) (website (issuers_at s a))
                        Suspended (registrationDate (issuers_at s a))]> (issuers s))
               (certificateDetails s) (_nextTokenId s)
               (events s ++ [IssuerStatusUpdated a Active Suspended]))).
  { sol_unfold. simpl. rewrite Ha1. simpl. rewrite Hex. simpl.
    repeat (rewrite Hst; simpl). done. }
  assert (Hs1 : s1 = mkState (_roles_hasRole s) (_roles_adminRole s) (_owners s)
               (_balances s) (_tokenApprovals s) (_operatorApprovals s)
               (<[a := mkIssuer (name (issuers_at s a)) (website (issuers_at s a))
                        Suspended (registrationDate (issuers_at s a))]> (issuers s))
               (certificateDetails s) (_nextTokenId s)
               (events s ++ [IssuerStatusUpdated a Active Suspended])).
  { unfold s1, transact. by rewrite E1. }
  assert (Hrec1 : issuers_at s1 a
            = mkIssuer (name (issuers_at s a)) (website (issuers_at s a))
                       Suspended (registrationDate (issuers_at s a))).
  { rewrite Hs1. unfold issuers_at at 1. simpl. by rewrite lookup_insert_eq. }
  assert (Hex1 : _issuerExists a s1 = true).
  { unfold _issuerExists in *. by rewrite Hrec1. }
  assert (Ha2' : hasRole ADMIN_ROLE (msg_sender env2) s1 = true).
  { by rewrite Hs1. }
  assert (E2 : exec env2 (UpdateIssuerStatus a Active) s1 =
    Done tt (mkState (_roles_hasRole s) (_roles_adminRole s) (_owners s)
               (_balances s) (_tokenApprovals s) (_operatorApprovals s)
               (issuers s) (certificateDetails s) (_nextTokenId s)
               (events s ++ [IssuerStatusUpdated a Active Suspended;
                             IssuerStatusUpdated a Suspended Active]))).
  { sol_unfold. simpl. rewrite Ha2'. simpl. rewrite Hex1. simpl.
    repeat (rewrite Hrec1; simpl).
    unfold set_issuer_status, set_issuers. repeat (rewrite Hrec1; simpl).
    rewrite Hs1. simpl. rewrite insert_insert_eq.
    rewrite <- app_assoc. simpl. do 2 f_equal. f_equal.
    apply insert_id. rewrite Hlk. f_equal.
    destruct (issuers_at s a); simpl in *. by subst. }
  split; [unfold failure; by rewrite E1|].
  split; [unfold failure; by rewrite E2|].
  split.
  - intros env to n t <-. unfold failure.
    destruct (exec env (IssueCertificate to n t) s1) as [[] s'|] eqn:H; [|done].
    apply issueCertificate_Done in H. simpl in H. destruct H as (_&Hact&_).
    by rewrite Hrec1 in Hact.
  - unfold s2, transact. by rewrite E2.
Qed.

Lemma suspend_reactivate_roundtrip_witness :
  let s := run history_added (deploy admin_env) in
  failure admin_env (UpdateIssuerStatus 2 Suspended) s = None.
Proof.
  refine (proj1 (suspend_reactivate_roundtrip admin_env admin_env 2
                   (run history_added (deploy admin_env)) _ _ _ _));
    vm_compute; reflexivity.
Defined.

(** X10. What a successful [updateIssuerStatus] logs: [IssuerStatusUpdated]
    with the old and the new status, last; before it, when the new status is
    Deactivated, [IssuerRoleRevoked], which is logged whether or not the
    identity still held the Issuer role, preceded by AccessControl's
    [RoleRevoked] only when it did. *)
Theorem updateIssuerStatus_log env a st s s' :
  exec env (UpdateIssuerStatus a st) s = Done tt s' ->
  events s' =
    events s
    ++ (if bool_decide (st = Deactivated)
        then (if hasRole ISSUER_ROLE a s
              then [RoleRevoked ISSUER_ROLE a (msg_sender env)] else [])
             ++ [IssuerRoleRevoked a]
        else [])
    ++ [IssuerStatusUpdated a (status (issuers_at s a)) st].
Proof.
  intros H. revert H. sol_unfold. intros H. paths; bools; simplify_eq.
  all: unfold hasRole, set_issuer_status, set_issuers in *; simpl in *.
  all: rewrite <- ?app_assoc; simpl; try done; try congruence.
Qed.

Lemma updateIssuerStatus_log_witness :
  let s := run history_added (deploy admin_env) in
  let s' := transact admin_env (UpdateIssuerStatus 2 Deactivated) s in
  events s' =
    events s
    ++ (if bool_decide (Deactivated = Deactivated)
        then (if hasRole ISSUER_ROLE 2 s
              then [RoleRevoked ISSUER_ROLE 2 (msg_sender admin_env)] else [])
             ++ [IssuerRoleRevoked 2]
        else [])
    ++ [IssuerStatusUpdated 2 (status (issuers_at s 2)) Deactivated].
Proof.
  refine (updateIssuerStatus_log admin_env 2 Deactivated
            (run history_added (deploy admin_env)) _ _).
  vm_compute. reflexivity.
Defined.

(** ** Reading a certificate back *)

(** X11. What [issueCertificate] stored is what [getCertificateDetails]
    returns, after whatever history: the recipient's name and address, the
    issuer, the block timestamp and the title.  The one exception is an
    issuance in a block with timestamp zero, whose record reads as missing
    (CredentialNotFound) although the token was minted. *)
Theorem certificate_roundtrip env to n t s s1 tr :
  exec env (IssueCertificate to n t) s = Done tt s1 ->
  getCertificateDetails (_nextTokenId s) (run tr s1)
    = if bool_decide (block_timestamp env = 0)
      then Reverted CredentialNotFound (run tr s1)
      else Done (mkCertificateData n to (msg_sender env) (block_timestamp env) t)
                (run tr s1).
Proof.
  intros H. apply issueCertificate_Done in H. simpl in H.
  destruct H as (_&_&_&Hto&_&_&_&Hc&Hown&_).
  assert (Hrec : certificateDetails (run tr s1) !! _nextTokenId s
                 = Some (mkCertificateData n to (msg_sender env)
                                           (block_timestamp env) t)).
  { rewrite run_record_frozen by congruence. by rewrite Hc, lookup_insert_eq. }
  unfold getCertificateDetails, _certificateExists, certificateDetails_at.
  munfold. simpl. rewrite Hrec. simpl.
  destruct (bool_decide (block_timestamp env = 0)); simpl; [done|].
  by rewrite Hrec.
Qed.

Lemma certificate_roundtrip_witness :
  let s := run history_added (deploy admin_env) in
  let s1 := transact issuer_env (IssueCertificate 7 "Bob" "Algorithms 101") s in
  let tr := [(admin_env, UpdateIssuerStatus 2 Deactivated)] in
  getCertificateDetails (_nextTokenId s) (run tr s1)
    = if bool_decide (block_timestamp issuer_env = 0)
      then Reverted CredentialNotFound (run tr s1)
      else Done (mkCertificateData "Bob" 7 (msg_sender issuer_env)
                                   (block_timestamp issuer_env) "Algorithms 101")
                (run tr s1).
Proof.
  refine (certificate_roundtrip issuer_env 7 "Bob" "Algorithms 101"
            (run history_added (deploy admin_env)) _
            [(admin_env, UpdateIssuerStatus 2 Deactivated)] _).
  vm_compute. reflexivity.
Defined.

(** ** The deployment module *)

Lemma grantRole_Done env role account s :
  hasRole (getRoleAdmin role s) (msg_sender env) s = true ->
  exists s', exec env (GrantRole role account) s = Done tt s' /\
    (forall r x, hasRole r x s'
       = (bool_decide (r = role) && bool_decide (x = account)) || hasRole r x s) /\
    _roles_adminRole s' = _roles_adminRole s /\ issuers s' = issuers s /\
    certificateDetails s' = certificateDetails s /\ _owners s' = _owners s /\
    _nextTokenId s' = _nextTokenId s.
Proof.
  intros Hr. sol_unfold. simpl. rewrite Hr. simpl.
  destruct (hasRole role account s) eqn:Hh; simpl; eexists; (split; [done|]);
    simpl; repeat split; try done; intros r x; unfold hasRole in *; simpl.
  - repeat case_bool_decide; simplify_eq; simpl; try done.
  - rewrite lookup_insert.
    case_decide; repeat case_bool_decide; simplify_eq; simpl; try done.
Qed.

(** X12. The deployment module goes through for every deployer account and
    every faucet address: the role it reads off the deployment log is
    ADMIN_ROLE, both [grantRole] calls succeed, and afterwards the deployer
    and the faucet, and nobody else, hold ADMIN_ROLE and DEFAULT_ADMIN_ROLE;
    no issuer is registered yet, and the faucet can register one. *)
Theorem CertifyModule_grants deployer t0 t1 t2 accepts demoRoleFaucet :
  readEventArgument_newAdminRole (events (deploy (mkEnv deployer t0 accepts)))
    = Some ADMIN_ROLE /\
  exists s,
    CertifyModule deployer t0 t1 t2 accepts demoRoleFaucet = Some s /\
    (forall role account,
       hasRole role account s
       = (bool_decide (account = deployer) || bool_decide (account = demoRoleFaucet))
         && (bool_decide (role = DEFAULT_ADMIN_ROLE) || bool_decide (role = ADMIN_ROLE))) /\
    getRoleAdmin ISSUER_ROLE s = ADMIN_ROLE /\
    issuers s = ∅ /\ _nextTokenId s = 0 /\
    (forall env a n w,
       msg_sender env = demoRoleFaucet ->
       failure env (AddIssuer a n w) s = None).
Proof.
  set (e0 := mkEnv deployer t0 accepts).
  assert (Hread : readEventArgument_newAdminRole (events (deploy e0)) = Some ADMIN_ROLE)
    by (by rewrite deploy_events).
  split; [done|]. unfold CertifyModule. fold e0. rewrite Hread.
  destruct (deploy_storage e0) as (Hn0 & _ & Hi0 & _ & _ & Hadm0 & _).
  pose proof (run_getRoleAdmin e0 [] ADMIN_ROLE) as Ha0.
  pose proof (run_getRoleAdmin e0 [] DEFAULT_ADMIN_ROLE) as Hd0.
  unfold run in Ha0, Hd0. simpl in Ha0, Hd0.
  rewrite ?bool_decide_eq_false_2 in Ha0 by done.
  rewrite ?bool_decide_eq_false_2 in Hd0 by done.
  destruct (grantRole_Done (mkEnv deployer t1 accepts) ADMIN_ROLE demoRoleFaucet
              (deploy e0)) as (s1 & E1 & Hr1 & Had1 & Hi1 & _ & _ & Hn1).
  { rewrite Ha0. simpl. rewrite deploy_hasRole. simpl.
    by rewrite bool_decide_eq_true_2. }
  rewrite E1.
  destruct (grantRole_Done (mkEnv deployer t2 accepts) ZeroHash demoRoleFaucet s1)
    as (s2 & E2 & Hr2 & Had2 & Hi2 & _ & _ & Hn2).
  { unfold getRoleAdmin in *. rewrite Had1.
    change (default 0 (_roles_adminRole (deploy e0) !! ZeroHash))
      with (default 0 (_roles_adminRole (deploy e0) !! DEFAULT_ADMIN_ROLE)).
    rewrite Hd0. simpl. rewrite Hr1, deploy_hasRole. simpl.
    rewrite (bool_decide_eq_true_2 (deployer = deployer)) by done.
    simpl. by rewrite ?orb_true_r. }
  rewrite E2. exists s2. split; [done|].
  assert (Hroles : forall role account,
       hasRole role account s2
       = (bool_decide (account = deployer) || bool_decide (account = demoRoleFaucet))
         && (bool_decide (role = DEFAULT_ADMIN_ROLE) || bool_decide (role = ADMIN_ROLE))).
  { intros role account. rewrite Hr2, Hr1, deploy_hasRole. simpl.
    unfold ZeroHash, DEFAULT_ADMIN_ROLE.
    repeat case_bool_decide; simplify_eq; simpl; try done. }
  split; [done|]. split.
  { unfold getRoleAdmin in *. by rewrite Had2, Had1. }
  split; [by rewrite Hi2, Hi1|]. split; [by rewrite Hn2, Hn1|].
  intros env a n w <-. unfold failure. sol_unfold. simpl.
  rewrite Hroles. rewrite (bool_decide_eq_true_2 (msg_sender env = msg_sender env)) by done.
  rewrite orb_true_r. simpl.
  unfold _issuerExists, issuers_at. rewrite Hi2, Hi1, Hi0, lookup_empty. simpl.
  by destruct (hasRole ISSUER_ROLE a s2).
Qed.

(** ** The certificate hook *)

Lemma minted_by_issuer_nonzero tr s0 id rec :
  senders_nonzero tr -> minted_by tr s0 id rec -> issuerAddress rec ≠ 0.
Proof.
  intros Hnz (tr1 & env & tr2 & -> & _ & _ & <- & _).
  unfold senders_nonzero in Hnz.
  apply Forall_app in Hnz as [_ Hnz]. apply Forall_app in Hnz as [Hnz _].
  by rewrite Forall_singleton in Hnz.
Qed.

(** X13. Against a registry whose history was sent from real accounts,
    [fetchAllDetails] with a contract handle and a token id ends with
    [isLoading] off and exactly one of [data] and [error] set.  An id that
    is not an integer of the [uint256] range is refused before anything is
    read (InvalidArgument).  For an existing certificate the result is
    [data]: the stored record, the owner shown as recipient is the stored
    recipient, and the issuer fields are those stored for the recorded
    issuer.  For any other id of the range it is the contract's
    CredentialNotFound failure; the hook's own not-found message (the test
    for a zero issuer address) is never produced.  Without a handle or an id
    only [error] is set: [data] and [isLoading] keep their earlier values. *)
Theorem fetchAllDetails_outcome toLocaleDateString e0 tr id h :
  senders_nonzero tr ->
  let s := run tr (deploy e0) in
  let c := certificateDetails_at s id in
  let i := issuers_at s (issuerAddress c) in
  fetchAllDetails toLocaleDateString (Some s) (Some (IntegerValue id)) h
    = (if negb (bool_decide (0 <= id <= MAX_UINT256))
       then mkHookState None false (Some InvalidArgument)
       else if _certificateExists id s
       then mkHookState
              (Some (mkCertificateView (courseTitle c) (recipientName c)
                       (recipientAddress c) (toLocaleDateString (issueDate c)) id
                       (issuerAddress c) (name i) (website i) (status i)
                       (toLocaleDateString (registrationDate i))))
              false None
       else mkHookState None false (Some (CallFailed CredentialNotFound))) /\
  fetchAllDetails toLocaleDateString (Some s) (Some NotAnInteger) h
    = mkHookState None false (Some InvalidArgument) /\
  (forall v, fetchAllDetails toLocaleDateString None v h
    = mkHookState (data h) (isLoading h) (Some ContractNotReady)) /\
  fetchAllDetails toLocaleDateString (Some s) None h
    = mkHookState (data h) (isLoading h) (Some ContractNotReady).
Proof.
  intros Hnz s c i. split; [|repeat split; by intros []].
  unfold fetchAllDetails, getCertificateDetails, getIssuer, ownerOf, _requireOwned.
  munfold. simpl. fold c.
  destruct (bool_decide (0 <= id <= MAX_UINT256)); simpl; [|done].
  destruct (_certificateExists id s) eqn:Hex; simpl; [|done].
  assert (Hrec : certificateDetails s !! id = Some c).
  { unfold _certificateExists in Hex. unfold c, certificateDetails_at in *.
    destruct (certificateDetails s !! id); [done|]. done. }
  destruct (run_owner_matches_record e0 tr id c Hrec) as (Hown & Hne & Hm).
  fold s in Hown.
  pose proof (minted_by_issuer_nonzero _ _ _ _ Hnz Hm) as Hiss.
  rewrite (bool_decide_eq_false_2 _ Hiss). simpl. rewrite Hown.
  rewrite (bool_decide_eq_false_2 _ Hne). simpl. done.
Qed.

Lemma fetchAllDetails_outcome_witness :
  let fmt : uint256 -> string := fun _ => EmptyString in
  let h := mkHookState None true None in
  let s := run history_issued (deploy admin_env) in
  let c := certificateDetails_at s 0 in
  let i := issuers_at s (issuerAddress c) in
  fetchAllDetails fmt (Some s) (Some (IntegerValue 0)) h
    = (if negb (bool_decide (0 <= 0 <= MAX_UINT256))
       then mkHookState None false (Some InvalidArgument)
       else if _certificateExists 0 s
       then mkHookState
              (Some (mkCertificateView (courseTitle c) (recipientName c)
                       (recipientAddress c) (fmt (issueDate c)) 0
                       (issuerAddress c) (name i) (website i) (status i)
                       (fmt (registrationDate i))))
              false None
       else mkHookState None false (Some (CallFailed CredentialNotFound))).
Proof.
  refine (proj1 (fetchAllDetails_outcome (fun _ => EmptyString) admin_env
                   history_issued 0 (mkHookState None true None) _)).
  unfold senders_nonzero, history_deactivated, history_issued, history_added;
    simpl; repeat constructor; simpl; discriminate.
Defined.

(** Identifiers outside the range never reach the contract, whatever is
    stored. *)
Example fetchAllDetails_out_of_range :
  let h := mkHookState None false None in
  let s := run history_issued (deploy admin_env) in
  fetchAllDetails (fun _ => EmptyString) (Some s) (Some (IntegerValue (-1))) h
    = mkHookState None false (Some InvalidArgument) /\
  fetchAllDetails (fun _ => EmptyString) (Some s) (Some (IntegerValue (2 ^ 256))) h
    = mkHookState None false (Some InvalidArgument) /\
  fetchAllDetails (fun _ => EmptyString) (Some s) (Some (IntegerValue 1)) h
    = mkHookState None false (Some (CallFailed CredentialNotFound)).
Proof. vm_compute. repeat split; reflexivity. Qed.

(** ** Callers without a role *)

(** X14. A caller that holds no role at all cannot change the registry: after
    any transaction it sends, the role memberships, the role admins, the
    issuer records, the certificates and the counter are what they were. *)
Theorem roleless_caller_changes_nothing env c s :
  (forall role, hasRole role (msg_sender env) s = false) ->
  let s' := transact env c s in
  _roles_hasRole s' = _roles_hasRole s /\
  _roles_adminRole s' = _roles_adminRole s /\
  issuers s' = issuers s /\
  certificateDetails s' = certificateDetails s /\
  _nextTokenId s' = _nextTokenId s.
Proof.
  intros Hno s'. unfold s'. clear s'.
  destruct (transact_cases env c s) as [[H _]|[-> _]]; [|done].
  revert H. generalize (transact env c s). intros s' H.
  pose proof (Hno ADMIN_ROLE) as Hadm. pose proof (Hno ISSUER_ROLE) as Hiss.
  destruct c as [a0 n0 w0|a0 st0|to0 n0 t0|r0 a0|r0 a0|r0 a0|to0 id0|op0 b0
                |f0 to0 id0|f0 to0 id0].
  - apply addIssuer_Done in H as [Hr _]. congruence.
  - apply updateIssuerStatus_Done in H as [Hr _]. congruence.
  - apply issueCertificate_Done in H as [Hr _]. congruence.
  - pose proof (Hno (getRoleAdmin r0 s)) as Hg. revert H. frame_solve.
  - pose proof (Hno (getRoleAdmin r0 s)) as Hg. revert H. frame_solve.
  - pose proof (Hno r0) as Hg. revert H. frame_solve.
  - revert H. frame_solve.
  - revert H. frame_solve.
  - revert H. frame_solve.
  - revert H. frame_solve.
Qed.

Lemma roleless_caller_changes_nothing_witness :
  issuers (transact holder_env (AddIssuer 7 "Me" "me.example") (deploy admin_env))
    = issuers (deploy admin_env).
Proof.
  refine (proj1 (proj2 (proj2 (roleless_caller_changes_nothing holder_env
            (AddIssuer 7 "Me" "me.example") (deploy admin_env) _)))).
  intros role. rewrite deploy_hasRole. reflexivity.
Defined.

(** * Recipients that call back *)

(** ** The two descriptions of a recipient *)

Lemma exec_with_other check env c :
  (forall to n t, c ≠ IssueCertificate to n t) ->
  (forall f to id, c ≠ SafeTransferFrom f to id) ->
  exec_with check env c = exec env c.
Proof.
  intros Hi Hs. destruct c; try done.
  - by exfalso; eapply Hi.
  - by exfalso; eapply Hs.
Qed.

(** [exec] is [exec_with] at the check that consults [receiver_accepts]. *)
Lemma exec_exec_with env c :
  exec env c = exec_with (checkOnERC721Received env) env c.
Proof. by destruct c. Qed.

(** Every execution against the oracle is an execution against a recipient
    that answers at once, with the selector where the oracle accepts and with
    another value where it refuses. *)
Lemma exec_is_rexec env c s :
  exists a, (a = ReturnsSelector \/ a = ReturnsOther) /\
            exec env c s = rexec env (Answers a) c s.
Proof.
  destruct c; try (by exists ReturnsSelector; split; [left|]).
  - exists (if receiver_accepts env _recipientAddress (_nextTokenId s)
            then ReturnsSelector else ReturnsOther).
    split; [destruct (receiver_accepts _ _ _); auto|].
    unfold rexec. simpl. unfold issueCertificate_with, _safeMint_with.
    sol_unfold. simpl.
    destruct (hasRole ISSUER_ROLE (msg_sender env) s); simpl; [|done].
    destruct (bool_decide (status (issuers_at s (msg_sender env)) = Active));
      simpl; [|done].
    destruct (bool_decide (_nextTokenId s = MAX_UINT256)); simpl; [done|].
    destruct (bool_decide (_recipientAddress = 0)); simpl; [done|].
    unfold _ownerOf. simpl.
    destruct (decide (default 0 (_owners s !! _nextTokenId s) = 0)) as [H5|H5].
    + apply (bool_decide_eq_true_2 _) in H5. repeat (rewrite H5; simpl).
      destruct (receiver_accepts env _recipientAddress (_nextTokenId s)); done.
    + apply (bool_decide_eq_false_2 _) in H5. repeat (rewrite H5; simpl). done.
  - exists (if receiver_accepts env to tokenId
            then ReturnsSelector else ReturnsOther).
    split; [destruct (receiver_accepts _ _ _); auto|].
    unfold rexec. simpl.
    unfold safeTransferFrom_with, safeTransferFrom, checkOnERC721Received.
    munfold.
    destruct (transferFrom env from to tokenId s) as [[] s1|e p]; [|done].
    destruct (receiver_accepts env to tokenId); done.
Qed.

(** What [issueCertificate] has done when it makes the acceptance check, and
    what it does with the answer. *)
Lemma issueCertificate_with_cases check env to n t s :
  let k := _nextTokenId s in
  let rec := mkCertificateData n to (msg_sender env) (block_timestamp env) t in
  (exists e, issueCertificate_with check env to n t s = Reverted e s) \/
  (exists e p, issueCertificate_with check env to n t s = Reverted e p /\
               _nextTokenId p = k + 1 /\
               certificateDetails p = <[k := rec]> (certificateDetails s)) \/
  (hasRole ISSUER_ROLE (msg_sender env) s = true /\
   status (issuers_at s (msg_sender env)) = Active /\
   k ≠ MAX_UINT256 /\ to ≠ 0 /\ _ownerOf k s = 0 /\
   exists s1,
     _nextTokenId s1 = k + 1 /\
     certificateDetails s1 = <[k := rec]> (certificateDetails s) /\
     _owners s1 = <[k := to]> (_owners s) /\
     events s1 = events s ++ [Transfer 0 to k] /\
     issueCertificate_with check env to n t s =
       match check to k s1 with
       | Done _ s2 =>
           Done tt (mkState (_roles_hasRole s2) (_roles_adminRole s2)
                            (_owners s2) (_balances s2) (_tokenApprovals s2)
                            (_operatorApprovals s2) (issuers s2)
                            (certificateDetails s2) (_nextTokenId s2)
                            (events s2 ++ [CertificateIssued k (msg_sender env) to]))
       | Reverted e p => Reverted e p
       end).
Proof.
  intros k rec. unfold issueCertificate_with, _safeMint_with. sol_unfold.
  destruct (hasRole ISSUER_ROLE (msg_sender env) s) eqn:H1; simpl;
    [|left; eauto].
  destruct (bool_decide (status (issuers_at s (msg_sender env)) = Active)) eqn:H2;
    simpl; [|left; eauto].
  destruct (bool_decide (_nextTokenId s = MAX_UINT256)) eqn:H3; simpl;
    [left; eauto|].
  destruct (bool_decide (to = 0)) eqn:H4; simpl.
  { right; left. eexists _, _. split; [done|]. done. }
  unfold _ownerOf. simpl.
  destruct (bool_decide (default 0 (_owners s !! _nextTokenId s) = 0)) eqn:H5;
    simpl.
  2:{ right; left. eexists _, _. split; [done|]. done. }
  bools. right; right. repeat split; try done.
  rewrite !H5. simpl. eexists. repeat split; cycle -1; [reflexivity|..]; done.
Qed.

(** The same, read off a success. *)
Lemma issueCertificate_with_Done check env to n t s s' :
  issueCertificate_with check env to n t s = Done tt s' ->
  let k := _nextTokenId s in
  let rec := mkCertificateData n to (msg_sender env) (block_timestamp env) t in
  hasRole ISSUER_ROLE (msg_sender env) s = true /\
  status (issuers_at s (msg_sender env)) = Active /\
  k ≠ MAX_UINT256 /\ to ≠ 0 /\ _ownerOf k s = 0 /\
  exists s1 s2,
    _nextTokenId s1 = k + 1 /\
    certificateDetails s1 = <[k := rec]> (certificateDetails s) /\
    _owners s1 = <[k := to]> (_owners s) /\
    events s1 = events s ++ [Transfer 0 to k] /\
    check to k s1 = Done tt s2 /\
    _nextTokenId s' = _nextTokenId s2 /\
    certificateDetails s' = certificateDetails s2 /\
    _owners s' = _owners s2 /\
    events s' = events s2 ++ [CertificateIssued k (msg_sender env) to].
Proof.
  intros H k rec.
  destruct (issueCertificate_with_cases check env to n t s)
    as [[e He]|[(e & p & He & _)|(H1 & H2 & H3 & H4 & H5 & s1 & F1 & F2 & F3 & F4 & He)]];
    try congruence.
  repeat split; try done. rewrite H in He.
  destruct (check to (_nextTokenId s) s1) as [[] s2|e p] eqn:Hc; [|done].
  exists s1, s2. simplify_eq. done.
Qed.

(** ** Relations kept by every call, call-backs included *)

Section Callbacks.
Variable R : State -> State -> Prop.
Hypothesis R_refl : forall s, R s s.
Hypothesis R_trans : forall s1 s2 s3, R s1 s2 -> R s2 s3 -> R s1 s3.
Hypothesis R_exec : forall check env c s s',
  (forall to id s1, R s1 (state_of (check to id s1))) ->
  exec_with check env c s = Done tt s' -> R s s'.

(** Whether the check passes or fails, the storage it ends with is related
    to the storage it started from. *)
Lemma check_related r :
  forall env to id s,
    R s (state_of (ERC721Utils_checkOnERC721Received env r to id s)).
Proof.
  induction r as [a|sender c inner IHinner rest IHrest]; intros env to id s.
  - destruct a; apply R_refl.
  - simpl. munfold. unfold caught.
    destruct (exec_with _ (with_sender env sender) c s) as [[] s1|e p] eqn:Hc.
    + eapply R_trans; [|apply IHrest].
      eapply R_exec; [|exact Hc]. intros. apply IHinner.
    + apply IHrest.
Qed.

Lemma rexec_related env r c s s' :
  rexec env r c s = Done tt s' -> R s s'.
Proof. apply R_exec. intros. apply check_related. Qed.

Lemma rtransact_related env r c s : R s (rtransact env r c s).
Proof.
  unfold rtransact. destruct (rexec env r c s) as [[] s'|e p] eqn:H.
  - by eapply rexec_related.
  - apply R_refl.
Qed.

Lemma rrun_related tr s : R s (rrun tr s).
Proof.
  induction tr as [|[[env r] c] tr IH] using rev_ind; [apply R_refl|].
  unfold rrun in *. rewrite fold_left_app. simpl.
  eapply R_trans; [exact IH|]. apply rtransact_related.
Qed.
End Callbacks.

(** *** The counter and the log *)

Lemma allocates_refl s : allocates s s.
Proof.
  split; [lia|]. exists []. rewrite app_nil_r, Z.sub_diag. done.
Qed.

Lemma allocates_trans s1 s2 s3 :
  allocates s1 s2 -> allocates s2 s3 -> allocates s1 s3.
Proof.
  intros [Hle1 (n1 & He1 & Hp1)] [Hle2 (n2 & He2 & Hp2)].
  split; [lia|]. exists (n1 ++ n2). split.
  - by rewrite He2, He1, app_assoc.
  - replace (_nextTokenId s3 - _nextTokenId s1)
      with ((_nextTokenId s2 - _nextTokenId s1) + (_nextTokenId s3 - _nextTokenId s2))
      by lia.
    rewrite seqZ_app by lia.
    replace (_nextTokenId s1 + (_nextTokenId s2 - _nextTokenId s1))
      with (_nextTokenId s2) by lia.
    by rewrite Hp1, Hp2.
Qed.

Lemma bind_Done {A} (m : M A) (f : A -> M unit) s s' :
  (x ← m; f x) s = Done tt s' ->
  exists a s1, m s = Done a s1 /\ f a s1 = Done tt s'.
Proof.
  unfold mbind, M_bind, bind. destruct (m s) as [a s1|e p]; [|done].
  intros H. by exists a, s1.
Qed.

Lemma exec_with_allocates check env c s s' :
  (forall to id s1, allocates s1 (state_of (check to id s1))) ->
  exec_with check env c s = Done tt s' -> allocates s s'.
Proof.
  intros Hcheck H.
  assert (Hframe : forall env c s s',
            (forall to n t, c ≠ IssueCertificate to n t) ->
            exec env c s = Done tt s' -> allocates s s').
  { clear. intros env c s s' Hc H.
    pose proof (exec_ledger_frame _ _ _ _ Hc H) as [_ Hn].
    pose proof (exec_issued_ids_frame _ _ _ _ Hc H) as He.
    unfold allocates. rewrite Hn, He. split; [lia|]. exists [].
    by rewrite app_nil_r, Z.sub_diag. }
  destruct c;
    try (match type of H with
         | exec_with _ _ ?c _ = _ => by apply (Hframe env c s s'); [done|exact H]
         end).
  - simpl in H. apply issueCertificate_with_Done in H. simpl in H.
    destruct H as (_&_&_&_&_& s1 & s2 & F1 & _ & _ & F4 & Hc & G1 & _ & _ & G4).
    pose proof (Hcheck _recipientAddress (_nextTokenId s) s1) as Ha.
    rewrite Hc in Ha. simpl in Ha. destruct Ha as [Hle (new & He & Hp)].
    rewrite F1 in Hle, Hp. rewrite F4, issued_ids_app in He. simpl in He.
    rewrite app_nil_r in He.
    split; [rewrite G1; lia|].
    exists (new ++ [_nextTokenId s]). split.
    + rewrite G4, issued_ids_app, He. simpl. by rewrite app_assoc.
    + rewrite G1.
      replace (_nextTokenId s2 - _nextTokenId s)
        with (Z.succ (_nextTokenId s2 - (_nextTokenId s + 1))) by lia.
      rewrite seqZ_cons by lia.
      rewrite <- Permutation_cons_append. constructor.
      replace (Z.pred (Z.succ (_nextTokenId s2 - (_nextTokenId s + 1))))
        with (_nextTokenId s2 - (_nextTokenId s + 1)) by lia.
      replace (Z.succ (_nextTokenId s)) with (_nextTokenId s + 1) by lia.
      done.
  - simpl in H. unfold safeTransferFrom_with in H.
    apply bind_Done in H as ([] & s1 & Ht & Hc).
    eapply allocates_trans.
    + apply (Hframe env (TransferFrom from to tokenId) s s1); [done|exact Ht].
    + pose proof (Hcheck to tokenId s1) as Ha. by rewrite Hc in Ha.
Qed.

(** *** Owned tokens and their records *)

Lemma frozen_refl s : frozen s s.
Proof. by intros id _. Qed.

Lemma frozen_trans s1 s2 s3 : frozen s1 s2 -> frozen s2 s3 -> frozen s1 s3.
Proof.
  intros H12 H23 id Hown. destruct (H12 id Hown) as [Ho Hr].
  destruct (H23 id) as [Ho' Hr']; [congruence|]. split; congruence.
Qed.

Lemma exec_with_frozen check env c s s' :
  (forall to id s1, frozen s1 (state_of (check to id s1))) ->
  exec_with check env c s = Done tt s' -> frozen s s'.
Proof.
  intros Hcheck H.
  assert (Hframe : forall env c s s', exec env c s = Done tt s' -> frozen s s').
  { clear. intros env c s s' H id Hown. split.
    - by eapply exec_owner_frozen.
    - by eapply exec_record_frozen. }
  destruct c;
    try (match type of H with
         | exec_with _ _ ?c _ = _ => by apply (Hframe env c s s')
         end).
  - simpl in H. apply issueCertificate_with_Done in H. simpl in H.
    destruct H as (_&_&_&_& Hk & s1 & s2 & _ & F2 & F3 & _ & Hc & _ & G2 & G3 & _).
    pose proof (Hcheck _recipientAddress (_nextTokenId s) s1) as Hf.
    rewrite Hc in Hf. simpl in Hf.
    intros id Hown.
    assert (Hne : id ≠ _nextTokenId s) by (intros ->; done).
    destruct (Hf id) as [Ho Hr].
    { unfold _ownerOf in *. rewrite F3, lookup_insert_ne; done. }
    unfold _ownerOf in *. rewrite G3, G2, Ho, Hr, F3, F2.
    rewrite !lookup_insert_ne; done.
  - simpl in H. unfold safeTransferFrom_with in H.
    apply bind_Done in H as ([] & s1 & Ht & Hc).
    eapply frozen_trans.
    + apply (Hframe env (TransferFrom from to tokenId) s s1). exact Ht.
    + pose proof (Hcheck to tokenId s1) as Ha. by rewrite Hc in Ha.
Qed.

(** *** Histories without call-backs *)

(** A recipient that only answers decides the same storage as the oracle
    that accepts when it does. *)
Lemma rtransact_answers env a c s :
  rtransact env (Answers a) c s =
  transact (mkEnv (msg_sender env) (block_timestamp env)
                  (fun _ _ => accepts (Answers a))) c s.
Proof.
  unfold rtransact, transact, rexec.
  destruct c; try reflexivity.
  - simpl. unfold issueCertificate_with, _safeMint_with. sol_unfold. simpl.
    destruct (hasRole ISSUER_ROLE (msg_sender env) s); simpl; [|done].
    destruct (bool_decide (status (issuers_at s (msg_sender env)) = Active));
      simpl; [|done].
    destruct (bool_decide (_nextTokenId s = MAX_UINT256)); simpl; [done|].
    destruct (bool_decide (_recipientAddress = 0)); simpl; [done|].
    unfold _ownerOf. simpl.
    destruct (decide (default 0 (_owners s !! _nextTokenId s) = 0)) as [H5|H5].
    + apply (bool_decide_eq_true_2 _) in H5. repeat (rewrite H5; simpl).
      destruct a; done.
    + apply (bool_decide_eq_false_2 _) in H5. repeat (rewrite H5; simpl). done.
  - simpl. unfold safeTransferFrom_with, safeTransferFrom, checkOnERC721Received.
    munfold. simpl.
    change (transferFrom (mkEnv (msg_sender env) (block_timestamp env)
                                (fun _ _ => accepts (Answers a))) from to tokenId s)
      with (transferFrom env from to tokenId s).
    destruct (transferFrom env from to tokenId s) as [[] s1|e p]; [|done].
    destruct a; done.
Qed.

Lemma rrun_sequential tr s :
  no_reentry tr -> rrun tr s = run (sequential tr) s.
Proof.
  intros Hno. revert s.
  induction tr as [|[[env r] c] tr IH]; intros s; [done|].
  apply Forall_cons in Hno as [Hr Hno]. simpl in Hr.
  destruct r as [a|]; [|done].
  simpl. rewrite <- IH by done. f_equal. apply rtransact_answers.
Qed.

(** ** Identifier allocation *)

Lemma rrun_allocates tr s : allocates s (rrun tr s).
Proof.
  apply rrun_related.
  - apply allocates_refl.
  - apply allocates_trans.
  - apply exec_with_allocates.
Qed.

Lemma rrun_ids_up_to_counter e0 tr :
  0 <= _nextTokenId (rrun tr (deploy e0)) /\
  issued_ids (events (rrun tr (deploy e0)))
    ≡ₚ seqZ 0 (_nextTokenId (rrun tr (deploy e0))).
Proof.
  destruct (rrun_allocates tr (deploy e0)) as [Hle (new & He & Hp)].
  destruct (deploy_storage e0) as (Hd0 & _ & _ & _ & Hde & _).
  rewrite Hd0 in Hle, Hp. rewrite Hde in He. simpl in He.
  rewrite Z.sub_0_r in Hp. split; [done|]. by rewrite He.
Qed.

(** C3. Identifiers follow the counter.  In every history played from
    deployment, call-backs included, the identifiers logged so far are the
    numbers below the counter, each once, so the counter is the number of
    issuances that took effect.  A successful [issueCertificate]
    is stored, minted and logged under the counter value it read; after it
    the counter is higher and the logged identifiers are again the numbers
    below it.  When the recipient does not call back, exactly that one
    identifier is taken; in a history without call-backs the identifier is
    the number of issuances that succeeded before, and the log carries
    0, 1, 2, ... in this order.  A failing call takes no identifier. *)
Theorem C3_identifiers_follow_the_counter e0 tr env r to nm t s' :
  let s := rrun tr (deploy e0) in
  let n := _nextTokenId s in
  rexec env r (IssueCertificate to nm t) s = Done tt s' ->
  issued_ids (events s) ≡ₚ seqZ 0 n /\
  n = Z.of_nat (length (issued_ids (events s))) /\
  certificateDetails s' !! n =
    Some (mkCertificateData nm to (msg_sender env) (block_timestamp env) t) /\
  _ownerOf n s' = to /\
  last (events s') = Some (CertificateIssued n (msg_sender env) to) /\
  n < _nextTokenId s' /\
  issued_ids (events s') ≡ₚ seqZ 0 (_nextTokenId s') /\
  (answers_only r = true ->
     _nextTokenId s' = n + 1 /\
     events s' = events s ++ [Transfer 0 to n;
                              CertificateIssued n (msg_sender env) to]) /\
  (no_reentry tr ->
     n = Z.of_nat (issuances (sequential tr) (deploy e0)) /\
     issued_ids (events s)
       = Z.of_nat <$> seq 0 (issuances (sequential tr) (deploy e0))) /\
  (forall env' r' c e,
     rfailure env' r' c s = Some e ->
     _nextTokenId (rtransact env' r' c s) = n /\
     issued_ids (events (rtransact env' r' c s)) = issued_ids (events s)).
Proof.
  intros s n H.
  destruct (rrun_ids_up_to_counter e0 tr) as [Hn0 Hids]. fold s in Hn0, Hids.
  fold n in Hn0, Hids.
  assert (Hall : allocates s s').
  { eapply (rexec_related allocates); [apply allocates_refl|apply allocates_trans
                                       |apply exec_with_allocates|exact H]. }
  unfold rexec in H. simpl in H.
  apply issueCertificate_with_Done in H. simpl in H. fold n in H.
  destruct H as (_&_&_& Hto & Hk & s1 & s2 & F1 & F2 & F3 & F4 & Hc
                 & G1 & G2 & G3 & G4).
  pose proof (check_related allocates allocates_refl allocates_trans
                exec_with_allocates r env to n s1) as Ha.
  pose proof (check_related frozen frozen_refl frozen_trans
                exec_with_frozen r env to n s1) as Hf.
  rewrite Hc in Ha, Hf. simpl in Ha, Hf.
  destruct (Hf n) as [Ho Hr].
  { unfold _ownerOf. rewrite F3, lookup_insert_eq. done. }
  split; [done|]. split.
  { rewrite Hids, length_seqZ. lia. }
  split.
  { rewrite G2, Hr, F2, lookup_insert_eq. done. }
  split.
  { unfold _ownerOf in *. rewrite G3, Ho, F3, lookup_insert_eq. done. }
  split.
  { rewrite G4. apply last_snoc. }
  split.
  { destruct Ha as [Hle _]. rewrite G1. lia. }
  split.
  { destruct Hall as [Hle (new & He & Hp)]. fold n in Hle, Hp.
    rewrite He, Hids, Hp.
    replace (_nextTokenId s') with (n + (_nextTokenId s' - n)) at 2 by lia.
    rewrite seqZ_app by lia. done. }
  split.
  { intros Hr'. destruct r as [a|]; [|done].
    destruct a; simpl in Hc; try done.
    assert (s2 = s1) by (by injection Hc). subst s2.
    rewrite G1, G4, F1, F4, <- app_assoc. done. }
  split.
  { intros Hno. unfold n, s. rewrite (rrun_sequential _ _ Hno).
    destruct (run_counter (sequential tr) (deploy e0)) as [Hcn Hce].
    destruct (deploy_storage e0) as (Hd0 & _ & _ & _ & Hde & _).
    rewrite Hd0 in Hcn, Hce. rewrite Hde in Hce. simpl in Hcn, Hce.
    split; [done|]. rewrite Hce. apply list_fmap_ext. intros; lia. }
  intros env' r' c e Hfail. unfold rfailure in Hfail. unfold rtransact.
  destruct (rexec env' r' c s); done.
Qed.

Lemma C3_identifiers_follow_the_counter_witness :
  let s := rrun issuers_added (deploy admin_env) in
  _ownerOf (_nextTokenId s) (rrun reentrant_history (deploy admin_env)) = 5.
Proof.
  refine (proj1 (proj2 (proj2 (proj2 (C3_identifiers_follow_the_counter
            admin_env issuers_added issuer_env calls_back 5 "Academy"
            "Algorithms 101" (rrun reentrant_history (deploy admin_env)) _))))).
  vm_compute. reflexivity.
Defined.

(** C3 as the specification has it: the issuance that succeeds after [i]
    others is given the identifier [i].  The log lists the issuances in the
    order in which they succeeded.  In [reentrant_history] the issuance made
    from within the call-back succeeds first and carries the identifier 1. *)
Lemma C3_counterexample :
  ~ (forall e0 tr (i : nat) id,
       issued_ids (events (rrun tr (deploy e0))) !! i = Some id ->
       id = Z.of_nat i).
Proof.
  intros H. specialize (H admin_env reentrant_history 0%nat 1).
  assert (Hlog : issued_ids (events (rrun reentrant_history (deploy admin_env)))
                 !! 0%nat = Some 1) by (vm_compute; reflexivity).
  apply H in Hlog. discriminate.
Qed.

(** One transaction, two identifiers: the log has 1 before 0, the counter is
    at 2, and token 0 belongs to the contract, token 1 to account 7. *)
Example nested_issuance_is_logged_first :
  let s := rrun reentrant_history (deploy admin_env) in
  issued_ids (events s) = [1; 0] /\ _nextTokenId s = 2 /\
  _ownerOf 0 s = 5 /\ _ownerOf 1 s = 7 /\
  issuerAddress (certificateDetails_at s 0) = 2 /\
  issuerAddress (certificateDetails_at s 1) = 5.
Proof. vm_compute. repeat split; reflexivity. Qed.

(** ** Atomicity *)

(** From deployment on, call-backs included, the admin role of the Issuer
    role is the Admin role. *)
Lemma rrun_adminRole_fixed e0 tr :
  getRoleAdmin ISSUER_ROLE (rrun tr (deploy e0)) = ADMIN_ROLE.
Proof.
  assert (H : _roles_adminRole (rrun tr (deploy e0)) = _roles_adminRole (deploy e0)).
  { apply (rrun_related (fun s s' => _roles_adminRole s' = _roles_adminRole s));
      [done|congruence|].
    intros check env c s s' Hcheck H.
    assert (Hframe : forall env c s s',
              exec env c s = Done tt s' -> _roles_adminRole s' = _roles_adminRole s)
      by (intros; by eapply exec_adminRole_frame).
    destruct c;
      try (match type of H with
           | exec_with _ _ ?c _ = _ => by apply (Hframe env c s s')
           end).
    - simpl in H. unfold issueCertificate_with, _safeMint_with in H.
      revert H. sol_unfold. intros H. paths; try done.
      match type of H with
      | context [check ?a ?b ?st] =>
          pose proof (Hcheck a b st) as Hc; destruct (check a b st); [|done]
      end.
      simpl in *. simplify_eq. simpl. done.
    - simpl in H. unfold safeTransferFrom_with in H.
      apply bind_Done in H as ([] & s1 & Ht & Hc).
      pose proof (Hcheck to tokenId s1) as Ha. rewrite Hc in Ha. simpl in Ha.
      rewrite Ha. apply (Hframe env (TransferFrom from to tokenId) s s1 Ht). }
  destruct (deploy_storage e0) as (_&_&_&_&_& Hd &_).
  unfold getRoleAdmin in *. by rewrite H.
Qed.

(** C8. A call that reverts leaves the storage and the log as they were,
    whatever it had written, call-backs and their nested calls included.
    In the code itself: [addIssuer], [updateIssuerStatus] and the role and
    approval calls revert before they write anything, so between the status
    write and the role revocation of a deactivation nothing can fail
    (wherever the admin role of the Issuer role is the Admin role, as it is
    from deployment on); [issueCertificate] reverts either before its first
    write or after both the counter and the record were written, never
    between the two. *)
Theorem C8_failure_is_atomic env r c s e p :
  rexec env r c s = Reverted e p ->
  rtransact env r c s = s /\
  (getRoleAdmin ISSUER_ROLE s = ADMIN_ROLE ->
   (forall to n t, c ≠ IssueCertificate to n t) ->
   (forall f to id, c ≠ TransferFrom f to id) ->
   (forall f to id, c ≠ SafeTransferFrom f to id) ->
   p = s) /\
  (forall to n t, c = IssueCertificate to n t ->
     p = s \/
     (_nextTokenId s < _nextTokenId p /\
      certificateDetails p !! _nextTokenId s =
        Some (mkCertificateData n to (msg_sender env) (block_timestamp env) t))).
Proof.
  intros H. split; [by unfold rtransact; rewrite H|]. split.
  - intros Hadm Hi Ht Hs. unfold rexec in H.
    rewrite exec_with_other in H by done.
    by eapply checks_precede_writes.
  - intros to n t ->. unfold rexec in H. simpl in H.
    destruct (issueCertificate_with_cases
                (ERC721Utils_checkOnERC721Received env r) env to n t s)
      as [[e' He]|[(e' & p' & He & Hn & Hr)
                  |(_&_&_& Hto &_& s1 & F1 & F2 & F3 & _ & He)]].
    + left. congruence.
    + right. rewrite H in He. simplify_eq. rewrite Hn, Hr, lookup_insert_eq.
      split; [lia|done].
    + right. rewrite H in He.
      pose proof (check_related allocates allocates_refl allocates_trans
                    exec_with_allocates r env to (_nextTokenId s) s1) as Ha.
      pose proof (check_related frozen frozen_refl frozen_trans
                    exec_with_frozen r env to (_nextTokenId s) s1) as Hf.
      destruct (ERC721Utils_checkOnERC721Received env r to (_nextTokenId s) s1)
        as [[] s2|e2 p2]; [done|].
      simplify_eq. simpl in Ha, Hf. destruct Ha as [Hle _].
      destruct (Hf (_nextTokenId s)) as [_ Hr].
      { unfold _ownerOf. rewrite F3, lookup_insert_eq. done. }
      rewrite Hr, F2, lookup_insert_eq. split; [lia|done].
Qed.

Lemma C8_failure_is_atomic_witness :
  let s := rrun issuers_added (deploy admin_env) in
  rtransact issuer_env calls_back_and_reverts
            (IssueCertificate 5 "Academy" "Algorithms 101") s = s.
Proof.
  refine (proj1 (C8_failure_is_atomic issuer_env calls_back_and_reverts
            (IssueCertificate 5 "Academy" "Algorithms 101")
            (rrun issuers_added (deploy admin_env))
            (RequireFailed "Academy: not now")
            (state_of (rexec issuer_env calls_back_and_reverts
                         (IssueCertificate 5 "Academy" "Algorithms 101")
                         (rrun issuers_added (deploy admin_env)))) _)).
  vm_compute. reflexivity.
Defined.

(** What is discarded there: the storage at the revert had both certificates
    in it. *)
Example nested_issuance_is_rolled_back :
  let s := rrun issuers_added (deploy admin_env) in
  exists p, rexec issuer_env calls_back_and_reverts
                  (IssueCertificate 5 "Academy" "Algorithms 101") s
            = Reverted (RequireFailed "Academy: not now") p
            /\ _nextTokenId p = 2 /\ _ownerOf 1 p = 7 /\ issued_ids (events p) = [1]
            /\ _nextTokenId s = 0.
Proof. eexists. vm_compute. repeat split; reflexivity. Qed.

(** ** The outcome of an issuance *)


(** The hypothesis of the outcome table holds along every history sent from
    real accounts. *)
Lemma run_next_unowned e0 tr :
  senders_nonzero tr ->
  _ownerOf (_nextTokenId (run tr (deploy e0))) (run tr (deploy e0)) = 0.
Proof.
  intros Hnz. destruct (run_ledger_dense e0 tr Hnz) as (_ & Ho & _ & _).
  destruct (decide (_ownerOf (_nextTokenId (run tr (deploy e0)))
                             (run tr (deploy e0)) = 0)) as [|Hne]; [done|].
  apply Ho in Hne. lia.
Qed.



(** The recipient's own reason reaches the issuer. *)
Example recipient_reason_is_raised_again :
  rfailure issuer_env calls_back_and_reverts
           (IssueCertificate 5 "Academy" "Algorithms 101")
           (rrun issuers_added (deploy admin_env))
  = Some (RequireFailed "Academy: not now").
Proof. vm_compute. reflexivity. Qed.

(** ** Non-transferability under call-backs *)

Lemma rrun_frozen tr s : frozen s (rrun tr s).
Proof.
  apply rrun_related.
  - apply frozen_refl.
  - apply frozen_trans.
  - apply exec_with_frozen.
Qed.

(** X15. Call-backs do not open a way round the guard: through any history,
    whatever the recipients of its mints do when they are called, an owned
    token keeps its owner and its record, and both transfer entry points
    fail for it - with ERC721InvalidReceiver when the target is
    [address(0)], with TransferForbidden otherwise - before any recipient is
    called. *)
Theorem soulbound_under_callbacks tr s id :
  _ownerOf id s ≠ 0 ->
  let s' := rrun tr s in
  _ownerOf id s' = _ownerOf id s /\
  certificateDetails s' !! id = certificateDetails s !! id /\
  (forall env r from to,
     rfailure env r (TransferFrom from to id) s'
       = Some (if bool_decide (to = 0) then ERC721InvalidReceiver 0
               else TransferForbidden) /\
     rfailure env r (SafeTransferFrom from to id) s'
       = Some (if bool_decide (to = 0) then ERC721InvalidReceiver 0
               else TransferForbidden)).
Proof.
  intros Hown s'. destruct (rrun_frozen tr s id Hown) as [Ho Hr].
  fold s' in Ho, Hr. split; [done|]. split; [done|].
  intros env r from to.
  assert (Hown' : _ownerOf id s' ≠ 0) by congruence.
  unfold rfailure, rexec. simpl. unfold safeTransferFrom_with.
  case_bool_decide as Hto.
  - subst to. done.
  - destruct (transfer_owned_refused env from to id s' Hown' Hto) as [Ht _].
    unfold failure in Ht. simpl in Ht. munfold.
    destruct (transferFrom env from to id s') as [[] ?|e p]; [done|].
    by simplify_eq.
Qed.

Lemma soulbound_under_callbacks_witness :
  let s := rrun issuers_added (deploy admin_env) in
  let s1 := rtransact issuer_env (Answers ReturnsSelector)
                      (IssueCertificate 5 "Academy" "Algorithms 101") s in
  let s' := rrun [(mkEnv 5 400 always_accepts, calls_back,
                   IssueCertificate 5 "Academy" "Logic")] s1 in
  _ownerOf 0 s' = _ownerOf 0 s1.
Proof.
  refine (proj1 (soulbound_under_callbacks
            [(mkEnv 5 400 always_accepts, calls_back,
              IssueCertificate 5 "Academy" "Logic")]
            (rtransact issuer_env (Answers ReturnsSelector)
                       (IssueCertificate 5 "Academy" "Algorithms 101")
                       (rrun issuers_added (deploy admin_env)))
            0 _)).
  vm_compute. discriminate.
Defined.
